(** * sw.js: the service worker of the anti-333 web application

    A shallow embedding of [src/sw.js] and the properties of its four event
    handlers (install, activate, fetch, message).

    The worker is written against three platform interfaces: the cache
    storage ([caches], [Cache]), the network ([fetch]) and promises.  They
    are modelled here the way the worker uses them:

    - a cache namespace is a finite map from request URLs to responses;
      the cache storage is the list of named namespaces in creation order
      (the order in which [caches.keys()] lists them and in which
      [caches.match] searches them);
    - the network is an oracle from requests to outcomes: a response, a
      failure (the promise of [fetch] rejects) or no answer at all (the
      promise never settles);
    - a promise is a computation over the worker's world (cache storage and
      the trace of effects) whose outcome is fulfilled, rejected or pending;
      [.then] and [.catch] are the two binds of that monad.

    One run of a handler is modelled on its own: the promise chains a handler
    starts are run one after the other, a chain that is not awaited
    ([event.waitUntil] in the fetch handler, a promise left floating) is run
    for its effects only and its outcome is dropped.  [cache.put] and
    [cache.addAll] reject what the platform has them reject (a response of
    status 206 or with Vary [*], a request that is not an http or https GET);
    beyond that the storage does not fail (no quota errors). *)

From Stdlib Require Import String Ascii List ZArith Bool Lia.
From stdpp Require Import gmap strings list fin_maps.
Import ListNotations.

Local Open Scope string_scope.
Local Open Scope Z_scope.
Local Open Scope list_scope.

(** ** Strings, the way JavaScript's [String.prototype] methods read them *)

Module JsString.

(** [s.startsWith(p)] *)
Fixpoint startsWith (s p : string) : bool :=
  match p with
  | EmptyString => true
  | String c p' =>
      match s with
      | EmptyString => false
      | String d s' => Ascii.eqb c d && startsWith s' p'
      end
  end.

(** [s.includes(p)] *)
Fixpoint includes (s p : string) : bool :=
  startsWith s p ||
  match s with
  | EmptyString => false
  | String _ s' => includes s' p
  end.

(** ASCII lower-casing, as header names are compared. *)
Definition lower_ascii (c : ascii) : ascii :=
  let n := nat_of_ascii c in
  if (Nat.leb 65 n && Nat.leb n 90)%bool then ascii_of_nat (n + 32) else c.

Fixpoint toLowerCase (s : string) : string :=
  match s with
  | EmptyString => EmptyString
  | String c s' => String (lower_ascii c) (toLowerCase s')
  end.

(** [parts.join(sep)] *)
Fixpoint join (sep : string) (parts : list string) : string :=
  match parts with
  | [] => EmptyString
  | [x] => x
  | x :: rest => x +:+ sep +:+ join sep rest
  end.

(** The part of [s] before the first character satisfying [stop], and the
    rest from that character on. *)
Fixpoint break (stop : ascii -> bool) (s : string) : string * string :=
  match s with
  | EmptyString => (EmptyString, EmptyString)
  | String c s' =>
      if stop c then (EmptyString, s)
      else let '(a, b) := break stop s' in (String c a, b)
  end.

(** [s.slice(n)] *)
Fixpoint slice (n : nat) (s : string) : string :=
  match n, s with
  | O, _ => s
  | S n', String _ s' => slice n' s'
  | S _, EmptyString => EmptyString
  end.

(** [s] after the first occurrence of [sep], when there is one. *)
Fixpoint after (sep s : string) : option string :=
  if startsWith s sep then Some (slice (String.length sep) s)
  else match s with
       | EmptyString => None
       | String _ s' => after sep s'
       end.

End JsString.

Import JsString.

(** ** URLs, requests and responses *)

(** The parts of a URL the worker reads ([new URL(s)]). *)
Record URL := {
  origin : string;
  pathname : string;
  search : string
}.

Definition is_path_end (c : ascii) : bool :=
  (Ascii.eqb c "?" || Ascii.eqb c "#")%bool.

Definition is_host_end (c : ascii) : bool :=
  (Ascii.eqb c "/" || is_path_end c)%bool.

(** [new URL(s)] on an absolute URL [scheme://host/path?query#fragment]. *)
Definition URL_new (s : string) : URL :=
  match after "://" s with
  | None => {| origin := EmptyString; pathname := s; search := EmptyString |}
  | Some rest =>
      let '(host, tail) := break is_host_end rest in
      let '(path, more) := break is_path_end tail in
      let '(query, _) := break (fun c => Ascii.eqb c "#") more in
      {| origin := fst (break (fun c => Ascii.eqb c ":") s) +:+ "://" +:+ host;
         pathname := if String.eqb path EmptyString then "/" else path;
         search := query |}
  end.

Record Request := {
  url : string;
  method : string;
  mode : string;
  headers : list (string * string)
}.

Inductive ResponseType :=
| basic | cors | default | error | opaque | opaqueredirect.

Record Response := {
  status : Z;
  type : ResponseType;
  resp_headers : list (string * string);
  body : string
}.

Definition ResponseType_eqb (a b : ResponseType) : bool :=
  match a, b with
  | basic, basic | cors, cors | default, default | error, error
  | opaque, opaque | opaqueredirect, opaqueredirect => true
  | _, _ => false
  end.

(** [response.ok]: the status is in the range 200..299. *)
Definition ok (r : Response) : bool :=
  (200 <=? status r) && (status r <=? 299).

(** [headers.get(name)]: the values of the fields of that name (compared
    without case), joined by a comma and a space; [None] is JavaScript's
    [null], for a name with no field. *)
Definition headers_get (h : list (string * string)) (name : string)
  : option string :=
  match List.filter (fun f => String.eqb (toLowerCase (fst f)) (toLowerCase name)) h with
  | [] => None
  | fields => Some (join ", " (List.map snd fields))
  end.

(** *** What the cache refuses to store

    [cache.put] and [cache.addAll] reject a response of status 206 and a
    response whose Vary header has a field value [*]; [cache.put] also
    rejects a request whose URL is not http or https, or whose method is not
    GET. *)

Definition is_space (c : ascii) : bool :=
  (Ascii.eqb c " " || Ascii.eqb c "009")%bool.

(** [s.split(sep)] on a one-character separator. *)
Fixpoint split (sep : ascii) (s : string) : list string :=
  match s with
  | EmptyString => [EmptyString]
  | String c s' =>
      if Ascii.eqb c sep then EmptyString :: split sep s'
      else match split sep s' with
           | [] => [String c EmptyString]
           | field :: fields => String c field :: fields
           end
  end.

Fixpoint trim_left (s : string) : string :=
  match s with
  | EmptyString => EmptyString
  | String c s' => if is_space c then trim_left s' else s
  end.

Fixpoint trim_right (s : string) : string :=
  match s with
  | EmptyString => EmptyString
  | String c s' =>
      let t := trim_right s' in
      if (is_space c && String.eqb t EmptyString)%bool then EmptyString
      else String c t
  end.

Definition trim (s : string) : string := trim_right (trim_left s).

(** A field value of the Vary header of [r] is [*]. *)
Definition vary_star (r : Response) : bool :=
  match headers_get (resp_headers r) "vary" with
  | None => false
  | Some values =>
      existsb (fun field => String.eqb (trim field) "*") (split "," values)
  end.

(** The cache refuses the response [r]. *)
Definition put_refuses (r : Response) : bool :=
  (status r =? 206) || vary_star r.

Definition http_scheme (u : string) : bool :=
  (startsWith u "http://" || startsWith u "https://")%bool.

(** ** [JSON.stringify] on an object whose fields are strings *)

Definition hex_digit (n : nat) : ascii :=
  if Nat.ltb n 10 then ascii_of_nat (48 + n) else ascii_of_nat (87 + n).

Definition quote_char : ascii := ascii_of_nat 34.
Definition backslash : ascii := ascii_of_nat 92.

Definition JSON_escape_char (c : ascii) : string :=
  let n := nat_of_ascii c in
  if Nat.eqb n 34 then String backslash (String quote_char EmptyString)
  else if Nat.eqb n 92 then String backslash (String backslash EmptyString)
  else if Nat.eqb n 8 then String backslash "b"
  else if Nat.eqb n 12 then String backslash "f"
  else if Nat.eqb n 10 then String backslash "n"
  else if Nat.eqb n 13 then String backslash "r"
  else if Nat.eqb n 9 then String backslash "t"
  else if Nat.ltb n 32 then
    String backslash ("u00" +:+ String (hex_digit (Nat.div n 16))
                                  (String (hex_digit (Nat.modulo n 16)) EmptyString))
  else String c EmptyString.

Fixpoint JSON_escape (s : string) : string :=
  match s with
  | EmptyString => EmptyString
  | String c s' => JSON_escape_char c +:+ JSON_escape s'
  end.

Definition JSON_quote (s : string) : string :=
  String quote_char (JSON_escape s) +:+ String quote_char EmptyString.

Definition JSON_stringify (fields : list (string * string)) : string :=
  "{" +:+ join "," (List.map (fun f => JSON_quote (fst f) +:+ ":" +:+ JSON_quote (snd f)) fields)
      +:+ "}".

(** ** The worker's constants (sw.js, lines 1 to 20) *)

Definition CACHE_NAME : string := "anti333-cache-v2".

Definition STATIC_ASSETS : list string := [
  "/";
  "/index.html";
  "/manifest.json";
  "/favicon-32.ico";
  "/favicon-96.png";
  "/apple-touch-icon.png";
  "/icon-192.png";
  "/icon-512.png"
].

Definition EXTERNAL_ASSETS : list string := [
  "https://cdnjs.cloudflare.com/ajax/libs/mammoth/1.6.0/mammoth.browser.min.js";
  "https://unpkg.com/docx@8.5.0/build/index.umd.js";
  "https://cdnjs.cloudflare.com/ajax/libs/FileSaver.js/2.0.5/FileSaver.min.js";
  "https://cdnjs.cloudflare.com/ajax/libs/pdf.js/3.11.174/pdf.min.js";
  "https://cdnjs.cloudflare.com/ajax/libs/pdf.js/3.11.174/pdf.worker.min.js";
  "https://cdnjs.cloudflare.com/ajax/libs/jspdf/2.5.1/jspdf.umd.min.js"
].

Definition OFFLINE_MESSAGE : string :=
  "Offline. Проверьте подключение к интернету.".

(** ** The platform: cache storage, network, promises *)

(** A cache namespace and the cache storage of the origin. *)
Abbreviation Cache := (gmap string Response).
Abbreviation CacheStorage := (list (string * gmap string Response)).

(** What [fetch] comes to: a response (of any status), a network failure
    (the promise rejects), or no answer (the promise never settles). *)
Inductive NetResult :=
| net_response (r : Response)
| net_failure
| net_stalled.

(** What the worker does not decide: where it is served from and what the
    network answers. *)
Record Env := {
  location_origin : string;
  network : Request -> NetResult
}.

(** The effects of a handler, in the order of the promise chains. *)
Inductive Event :=
| ev_log (msg : string)
| ev_fetch (req : Request)
| ev_caches_open (name : string)
| ev_caches_match (key : string)
| ev_caches_keys
| ev_caches_delete (name : string)
| ev_cache_addAll (name : string) (keys : list string)
| ev_cache_put (name key : string) (r : Response)
| ev_skipWaiting
| ev_clients_claim.

Record World := {
  caches : CacheStorage;
  trace : list Event
}.

Inductive JsError := TypeError | NetworkError.

Inductive Settled (A : Type) :=
| Fulfilled (v : A)
| Rejected (e : JsError)
| Pending.
Arguments Fulfilled {A} v.
Arguments Rejected {A} e.
Arguments Pending {A}.

Definition Promise (A : Type) : Type := Env -> World -> Settled A * World.

Module CacheStorageOps.

(** The namespace of that name: the first one, the storage holds one of a
    name at most. *)
Fixpoint lookup_cache (name : string) (cs : CacheStorage) : option Cache :=
  match cs with
  | [] => None
  | (n, c) :: rest => if String.eqb n name then Some c else lookup_cache name rest
  end.

Definition has (name : string) (cs : CacheStorage) : bool :=
  match lookup_cache name cs with Some _ => true | None => false end.

(** [caches.open(name)] creates the namespace when there is none. *)
Definition open (name : string) (cs : CacheStorage) : CacheStorage :=
  if has name cs then cs else cs ++ [(name, ∅)].

(** [caches.keys()] *)
Definition keys (cs : CacheStorage) : list string := List.map fst cs.

(** [caches.delete(name)] *)
Definition delete (name : string) (cs : CacheStorage) : CacheStorage :=
  List.filter (fun nc => negb (String.eqb (fst nc) name)) cs.

(** [caches.match(key)]: the namespaces are searched in creation order. *)
Fixpoint match_ (key : string) (cs : CacheStorage) : option Response :=
  match cs with
  | [] => None
  | (_, c) :: rest =>
      match c !! key with
      | Some r => Some r
      | None => match_ key rest
      end
  end.

(** [cache.put(key, r)] on the namespace [name]. *)
Definition put (name key : string) (r : Response) (cs : CacheStorage)
  : CacheStorage :=
  List.map (fun nc => if String.eqb (fst nc) name
                      then (fst nc, <[key := r]> (snd nc)) else nc) cs.

(** [cache.match(key)] on the namespace [name]. *)
Definition entry (name key : string) (cs : CacheStorage) : option Response :=
  match lookup_cache name cs with
  | Some c => c !! key
  | None => None
  end.

End CacheStorageOps.

Module CS := CacheStorageOps.

(** *** The promise monad *)

Definition resolve {A} (v : A) : Promise A :=
  fun _ w => (Fulfilled v, w).

Definition reject {A} (e : JsError) : Promise A :=
  fun _ w => (Rejected e, w).

(** [p.then(f)] *)
Definition then_ {A B} (p : Promise A) (f : A -> Promise B) : Promise B :=
  fun env w =>
    match p env w with
    | (Fulfilled v, w') => f v env w'
    | (Rejected e, w') => (Rejected e, w')
    | (Pending, w') => (Pending, w')
    end.

(** [p.catch(h)] *)
Definition catch {A} (p : Promise A) (h : JsError -> Promise A) : Promise A :=
  fun env w =>
    match p env w with
    | (Rejected e, w') => h e env w'
    | settled => settled
    end.

(** A promise that is started and not awaited: it runs for its effects, and
    whoever started it goes on at once, whatever becomes of it. *)
Definition detached {A} (p : Promise A) : Promise unit :=
  fun env w => (Fulfilled tt, snd (p env w)).

Declare Scope promise_scope.
Delimit Scope promise_scope with promise.
Notation "x <- p ;; q" := (then_ p (fun x => q))
  (at level 100, p at next level, right associativity) : promise_scope.
Notation "p ;; q" := (then_ p (fun _ => q))
  (at level 100, right associativity) : promise_scope.
Local Open Scope promise_scope.

Definition emit (e : Event) : Promise unit :=
  fun _ w => (Fulfilled tt, {| caches := caches w; trace := trace w ++ [e] |}).

Definition update_caches (f : CacheStorage -> CacheStorage) : Promise unit :=
  fun _ w => (Fulfilled tt, {| caches := f (caches w); trace := trace w |}).

Definition read_caches {A} (f : CacheStorage -> A) : Promise A :=
  fun _ w => (Fulfilled (f (caches w)), w).

Definition console_log (msg : string) : Promise unit := emit (ev_log msg).

(** A relative reference is resolved against the worker's location. *)
Definition absolute (env : Env) (ref : string) : string :=
  if startsWith ref "/" then location_origin env +:+ ref else ref.

(** A request or a URL, where the platform takes either; the cache is keyed
    by the URL of the request. *)
Inductive RequestInfo :=
| of_request (request : Request)
| of_url (ref : string).

Definition request_key (env : Env) (info : RequestInfo) : string :=
  match info with
  | of_request request => url request
  | of_url ref => absolute env ref
  end.

(** [fetch(request)] *)
Definition fetch (request : Request) : Promise Response :=
  emit (ev_fetch request) ;;
  fun env w =>
    match network env request with
    | net_response r => (Fulfilled r, w)
    | net_failure => (Rejected NetworkError, w)
    | net_stalled => (Pending, w)
    end.

(** [new Request(url, {mode})] *)
Definition Request_new (env : Env) (ref mode_ : string) : Request :=
  {| url := absolute env ref; method := "GET"; mode := mode_; headers := [] |}.

(** [fetch(url, {mode})] *)
Definition fetch_url (ref mode_ : string) : Promise Response :=
  fun env => fetch (Request_new env ref mode_) env.

(** [caches.open(name)]: the handle is the name of the namespace. *)
Definition caches_open (name : string) : Promise string :=
  emit (ev_caches_open name) ;;
  update_caches (CS.open name) ;;
  resolve name.

(** [caches.match(request)] and [caches.match(url)] *)
Definition caches_match (info : RequestInfo) : Promise (option Response) :=
  fun env => (emit (ev_caches_match (request_key env info)) ;;
              read_caches (CS.match_ (request_key env info))) env.

Definition caches_keys : Promise (list string) :=
  emit ev_caches_keys ;; read_caches CS.keys.

Definition caches_delete (name : string) : Promise bool :=
  emit (ev_caches_delete name) ;;
  existed <- read_caches (CS.has name) ;;
  update_caches (CS.delete name) ;;
  resolve existed.

(** The cache takes the request: an http or https URL, the method GET (the
    method of [new Request(url)]). *)
Definition request_storable (env : Env) (info : RequestInfo) : bool :=
  http_scheme (request_key env info) &&
  match info with
  | of_request request => String.eqb (method request) "GET"
  | of_url _ => true
  end.

(** [cache.put] takes the request and the response. *)
Definition put_accepts (env : Env) (info : RequestInfo) (r : Response) : bool :=
  request_storable env info && negb (put_refuses r).

(** [cache.put(request, response)] and [cache.put(url, response)]: the
    response is stored, or the promise is rejected and nothing is stored;
    [ev_cache_put] records a store. *)
Definition cache_put (cache : string) (info : RequestInfo) (r : Response)
  : Promise unit :=
  fun env =>
    (if put_accepts env info r
     then emit (ev_cache_put cache (request_key env info) r) ;;
          update_caches (CS.put cache (request_key env info) r)
     else reject TypeError) env.

(** [cache.addAll(urls)]: every URL is requested; one network failure, one
    response that is not ok or one response the cache refuses (status 206,
    Vary [*]) rejects the whole operation and nothing is stored; otherwise,
    once all have answered, all are stored.  The URLs the worker gives it are
    at its own origin, which the platform has at http or https. *)
Definition addAll_failed (o : NetResult) : bool :=
  match o with
  | net_response r => negb (ok r) || put_refuses r
  | net_failure => true
  | net_stalled => false
  end.

Definition addAll_stalled (o : NetResult) : bool :=
  match o with net_stalled => true | _ => false end.

Definition addAll_entry (env : Env) (req : Request) : list (string * Response) :=
  match network env req with
  | net_response r => [(url req, r)]
  | _ => []
  end.

Definition put_events (cache : string) (entries : list (string * Response))
  : list Event :=
  List.map (fun kr => ev_cache_put cache (fst kr) (snd kr)) entries.

Definition put_entries (cache : string) (entries : list (string * Response))
  (cs : CacheStorage) : CacheStorage :=
  fold_left (fun acc kr => CS.put cache (fst kr) (snd kr) acc) entries cs.

Definition cache_addAll (cache : string) (refs : list string) : Promise unit :=
  fun env w =>
    let reqs := List.map (fun ref => Request_new env ref "cors") refs in
    let asked := {| caches := caches w;
                    trace := trace w ++ ev_cache_addAll cache (List.map url reqs)
                                     :: List.map ev_fetch reqs |} in
    let answers := List.map (network env) reqs in
    if existsb addAll_failed answers then (Rejected TypeError, asked)
    else if existsb addAll_stalled answers then (Pending, asked)
    else
      let entries := flat_map (addAll_entry env) reqs in
      (Fulfilled tt,
       {| caches := put_entries cache entries (caches asked);
          trace := trace asked ++ put_events cache entries |}).

(** The promises of a list, each run to where it gets. *)
Fixpoint run_each {A} (ps : list (Promise A)) (env : Env) (w : World)
  : list (Settled A) * World :=
  match ps with
  | [] => ([], w)
  | p :: rest =>
      let '(o, w1) := p env w in
      let '(os, w2) := run_each rest env w1 in
      (o :: os, w2)
  end.

Definition is_pending {A} (o : Settled A) : bool :=
  match o with Pending => true | _ => false end.

Fixpoint first_rejection {A} (os : list (Settled A)) : option JsError :=
  match os with
  | [] => None
  | Rejected e :: _ => Some e
  | _ :: rest => first_rejection rest
  end.

Fixpoint fulfilled_values {A} (os : list (Settled A)) : list A :=
  match os with
  | [] => []
  | Fulfilled v :: rest => v :: fulfilled_values rest
  | _ :: rest => fulfilled_values rest
  end.

(** [Promise.allSettled(ps)] is fulfilled once every promise has settled, with
    their outcomes; it never rejects. *)
Definition Promise_allSettled {A} (ps : list (Promise A))
  : Promise (list (Settled A)) :=
  fun env w =>
    let '(os, w') := run_each ps env w in
    if existsb is_pending os then (Pending, w') else (Fulfilled os, w').

(** [Promise.all(ps)] rejects when one of them does, and is fulfilled once all
    are. *)
Definition Promise_all {A} (ps : list (Promise A)) : Promise (list A) :=
  fun env w =>
    let '(os, w') := run_each ps env w in
    match first_rejection os with
    | Some e => (Rejected e, w')
    | None =>
        if existsb is_pending os then (Pending, w')
        else (Fulfilled (fulfilled_values os), w')
    end.

Definition skipWaiting : Promise unit := emit ev_skipWaiting.
Definition clients_claim : Promise unit := emit ev_clients_claim.

(** ** The handlers of sw.js *)

(** The attempt to cache one external asset (lines 35 to 41). *)
Definition cache_external (cache url_ : string) : Promise unit :=
  catch
    (response <- fetch_url url_ "cors" ;;
     if ok response then cache_put cache (of_url url_) response else resolve tt)
    (fun _ => console_log ("[SW] Could not cache: " +:+ url_)).

(** The install handler (lines 23 to 48): the promise given to
    [event.waitUntil]. *)
Definition install : Promise unit :=
  console_log "[SW] Installing service worker..." ;;
  then_
    (cache <- caches_open CACHE_NAME ;;
     console_log "[SW] Caching static assets..." ;;
     cache_addAll cache STATIC_ASSETS ;;
     Promise_allSettled (List.map (cache_external cache) EXTERNAL_ASSETS))
    (fun _ => skipWaiting).

(** The deletion of one stale namespace (lines 59 to 62). *)
Definition delete_old (name : string) : Promise bool :=
  console_log ("[SW] Deleting old cache: " +:+ name) ;;
  caches_delete name.

(** The activate handler (lines 51 to 67). *)
Definition activate : Promise unit :=
  console_log "[SW] Activating service worker..." ;;
  then_
    (cacheNames <- caches_keys ;;
     Promise_all
       (List.map delete_old
          (List.filter (fun name => negb (String.eqb name CACHE_NAME)) cacheNames)))
    (fun _ => clients_claim).

(** The response of the worker to an API request it could not forward
    (lines 83 to 89). *)
Definition offline_response : Response :=
  {| status := 503;
     type := default;
     resp_headers := [("Content-Type", "application/json")];
     body := JSON_stringify [("error", OFFLINE_MESSAGE)] |}.

(** What a fetch event comes to: the handler returns without
    [event.respondWith] and the browser handles the request itself, or it
    answers with a promise; [None] for the value of that promise is
    JavaScript's [undefined]. *)
Inductive Intercept :=
| not_intercepted
| respondWith (answer : Settled (option Response)).

(** The revalidation of a cached entry (lines 102 to 109). *)
Definition revalidate (request : Request) : Promise unit :=
  catch
    (response <- fetch request ;;
     if ok response
     then detached (cache <- caches_open CACHE_NAME ;;
                    cache_put cache (of_request request) response)
     else resolve tt)
    (fun _ => resolve tt).

(** The request that is not in the cache (lines 115 to 130). *)
Definition fetch_and_cache (request : Request) : Promise (option Response) :=
  catch
    (response <- fetch request ;;
     (if ok response && ResponseType_eqb (type response) basic
      then detached (cache <- caches_open CACHE_NAME ;;
                     cache_put cache (of_request request) response)
      else resolve tt) ;;
     resolve (Some response))
    (fun _ =>
       match headers_get (headers request) "accept" with
       | None => reject TypeError
       | Some accept =>
           if includes accept "text/html" then caches_match (of_url "/")
           else resolve None
       end).

(** The fetch handler (lines 70 to 133). *)
Definition on_fetch (request : Request) (env : Env) (w : World)
  : Intercept * World :=
  let url_ := URL_new (url request) in
  if negb (String.eqb (method request) "GET") then (not_intercepted, w)
  else if startsWith (pathname url_) "/api/" then
    let '(answer, w') :=
      catch (response <- fetch request ;; resolve (Some response))
            (fun _ => resolve (Some offline_response)) env w in
    (respondWith answer, w')
  else
    let '(answer, w') :=
      (cachedResponse <- caches_match (of_request request) ;;
       match cachedResponse with
       | Some cached =>
           detached (revalidate request) ;;
           resolve (Some cached)
       | None => fetch_and_cache request
       end) env w in
    (respondWith answer, w').

(** The message handler (lines 136 to 140); [data_type] is
    [event.data.type] when there is one. *)
Definition on_message (data_type : option string) : Promise unit :=
  match data_type with
  | Some t => if String.eqb t "SKIP_WAITING" then skipWaiting else resolve tt
  | None => resolve tt
  end.

(** ** Sample inputs *)

Definition sample_origin : string := "https://anti333.example".

Definition sample_response (status_ : Z) (type_ : ResponseType) (body_ : string)
  : Response :=
  {| status := status_; type := type_; resp_headers := []; body := body_ |}.

Definition sample_request (method_ url_ : string) (headers_ : list (string * string))
  : Request :=
  {| url := url_; method := method_; mode := "no-cors"; headers := headers_ |}.

(** A network that answers every request with [r], one that is down, and one
    that never answers. *)
Definition online (r : Response) : Env :=
  {| location_origin := sample_origin; network := fun _ => net_response r |}.

Definition offline : Env :=
  {| location_origin := sample_origin; network := fun _ => net_failure |}.

Definition stalled : Env :=
  {| location_origin := sample_origin; network := fun _ => net_stalled |}.

Definition sample_world (cs : CacheStorage) : World :=
  {| caches := cs; trace := [] |}.

Definition api_request : Request :=
  sample_request "GET" "https://anti333.example/api/data" [].

Definition index_request : Request :=
  sample_request "GET" "https://anti333.example/index.html" [("Accept", "text/html")].

Definition new_page_request : Request :=
  sample_request "GET" "https://anti333.example/new-page.html"
    [("Accept", "text/html,application/xhtml+xml")].

Definition image_request : Request :=
  sample_request "GET" "https://anti333.example/logo.png" [("Accept", "image/png")].

Definition bare_request : Request :=
  sample_request "GET" "https://anti333.example/data.bin" [].

Definition post_request : Request :=
  sample_request "POST" "https://anti333.example/api/save" [].

Definition cached_index : Response := sample_response 200 basic "cached index".
Definition fresh_index : Response := sample_response 200 basic "fresh index".
Definition cached_root : Response := sample_response 200 basic "cached root".
Definition not_found : Response := sample_response 404 basic "not found".

(** A storage whose current namespace holds the root document and the index
    page. *)
Definition installed_caches : CacheStorage :=
  [(CACHE_NAME, <["https://anti333.example/index.html" := cached_index]>
                  {["https://anti333.example/" := cached_root]})].

(** A storage where only the namespace of the previous version holds the index
    page. *)
Definition stale_caches : CacheStorage :=
  [("anti333-cache-v1", {["https://anti333.example/index.html" := cached_index]});
   (CACHE_NAME, ∅)].

(** The text [{"error":"..."}] of the body of [offline_response]. *)
Definition offline_body : string :=
  String "{" (String quote_char ("error" +:+ String quote_char (":" +:+
    String quote_char (OFFLINE_MESSAGE +:+ String quote_char "}")))).

(** ** The fetch handler as the specification words it

    Three sentences of the specification say more than the handler does;
    they are stated here as the specification has them, next to the handler,
    and compared with it below. *)

(** The world in which the handler goes on after its cache lookup. *)
Definition looked_up (request : Request) (w : World) : World :=
  {| caches := caches w; trace := trace w ++ [ev_caches_match (url request)] |}.

(** What the handler comes to on the path of a request that is not cached. *)
Definition miss_path (request : Request) (env : Env) (w : World)
  : Intercept * World :=
  (respondWith (fst (fetch_and_cache request env (looked_up request w))),
   snd (fetch_and_cache request env (looked_up request w))).

(** "If the fetch fails, and the original request's declared acceptable
    content type includes HTML, return the cached entry for the root
    document; otherwise the failure propagates as an unhandled rejection." *)
Definition spec_cold_failure (request : Request) (env : Env) (w : World) : Prop :=
  method request = "GET" ->
  startsWith (pathname (URL_new (url request))) "/api/" = false ->
  CS.match_ (url request) (caches w) = None ->
  network env request = net_failure ->
  fst (on_fetch request env w) =
  respondWith
    (if match headers_get (headers request) "accept" with
        | Some accept => includes accept "text/html"
        | None => false
        end
     then Fulfilled (CS.match_ (location_origin env +:+ "/") (caches w))
     else Rejected NetworkError).

(** "A direct, non-opaque, non-redirected same-origin result": the response
    type the platform calls basic. *)
Definition spec_same_origin_result (r : Response) : Prop := type r = basic.

(** "If it succeeds, store a copy of the response into the cache namespace
    if and only if the response is a direct, non-opaque, non-redirected
    same-origin result, and return the response." *)
Definition spec_cold_success (request : Request) (env : Env) (w : World)
  (r : Response) : Prop :=
  method request = "GET" ->
  startsWith (pathname (URL_new (url request))) "/api/" = false ->
  CS.match_ (url request) (caches w) = None ->
  network env request = net_response r ->
  fst (on_fetch request env w) = respondWith (Fulfilled (Some r)) /\
  (CS.entry CACHE_NAME (url request) (caches (snd (on_fetch request env w))) = Some r
   <-> spec_same_origin_result r).

(** "If that fetch succeeds (success = the transport layer's own ok status),
    store the fresh response into the cache namespace, overwriting the prior
    entry under the same key." *)
Definition spec_revalidation (request : Request) (env : Env) (w : World)
  (fresh : Response) : Prop :=
  method request = "GET" ->
  startsWith (pathname (URL_new (url request))) "/api/" = false ->
  (exists cached, CS.match_ (url request) (caches w) = Some cached) ->
  network env request = net_response fresh ->
  ok fresh = true ->
  CS.entry CACHE_NAME (url request) (caches (snd (on_fetch request env w)))
  = Some fresh.

(** "Look up the request identity in the current cache namespace": a request
    the current namespace does not hold goes the way of a request that is not
    cached. *)
Definition spec_lookup_current (request : Request) (env : Env) (w : World) : Prop :=
  method request = "GET" ->
  startsWith (pathname (URL_new (url request))) "/api/" = false ->
  CS.entry CACHE_NAME (url request) (caches w) = None ->
  on_fetch request env w = miss_path request env w.

(** ** The effects of the lifecycle handlers, spelled out *)

(** The events of the deletion of the namespaces [names]. *)
Definition deletion_events (names : list string) : list Event :=
  flat_map (fun n => [ev_log ("[SW] Deleting old cache: " +:+ n); ev_caches_delete n])
    names.

Definition is_current (nc : string * Cache) : bool :=
  String.eqb (fst nc) CACHE_NAME.

(** The requests [cache.addAll(STATIC_ASSETS)] sends. *)
Definition static_requests (env : Env) : list Request :=
  List.map (fun ref => Request_new env ref "cors") STATIC_ASSETS.

(** The events of the install handler up to the requests for the static
    assets. *)
Definition install_prologue (env : Env) : list Event :=
  [ev_log "[SW] Installing service worker...";
   ev_caches_open CACHE_NAME;
   ev_log "[SW] Caching static assets...";
   ev_cache_addAll CACHE_NAME (List.map url (static_requests env))]
  ++ List.map ev_fetch (static_requests env).

(** The static assets as [cache.addAll] stores them. *)
Definition static_entries (env : Env) : list (string * Response) :=
  flat_map (addAll_entry env) (static_requests env).

(** One attempt to cache an external asset: how it settles, what it stores
    and what it leaves in the trace. *)
Definition external_outcome (env : Env) (ref : string) : Settled unit :=
  match network env (Request_new env ref "cors") with
  | net_stalled => Pending
  | _ => Fulfilled tt
  end.

Definition external_store (env : Env) (cache : string) (cs : CacheStorage)
  (ref : string) : CacheStorage :=
  match network env (Request_new env ref "cors") with
  | net_response r =>
      if ok r && put_accepts env (of_url ref) r
      then CS.put cache (absolute env ref) r cs else cs
  | _ => cs
  end.

Definition external_events (env : Env) (cache ref : string) : list Event :=
  ev_fetch (Request_new env ref "cors") ::
  match network env (Request_new env ref "cors") with
  | net_response r =>
      if ok r
      then if put_accepts env (of_url ref) r
           then [ev_cache_put cache (absolute env ref) r]
           else [ev_log ("[SW] Could not cache: " +:+ ref)]
      else []
  | net_failure => [ev_log ("[SW] Could not cache: " +:+ ref)]
  | net_stalled => []
  end.

(** [s.endsWith(t)] *)
Definition endsWith (s t : string) : bool :=
  String.eqb (slice (String.length s - String.length t) s) t.

Definition upgraded_caches : CacheStorage :=
  [("anti333-cache-v1", {["https://anti333.example/index.html" := cached_index]});
   (CACHE_NAME, {["https://anti333.example/" := cached_root]})].

(** A network on which only the manifest is missing (status 404), and one on
    which only mammoth cannot be reached. *)
Definition manifest_missing : Env :=
  {| location_origin := sample_origin;
     network := fun req =>
       if String.eqb (url req) "https://anti333.example/manifest.json"
       then net_response not_found
       else net_response (sample_response 200 basic (url req)) |}.


(** ** Further sample inputs and trace readers *)

(** The requests a trace sends to the network, in order. *)
Definition fetch_events (events : list Event) : list Request :=
  flat_map (fun e => match e with ev_fetch req => [req] | _ => [] end) events.

(** The names of the namespaces a trace deletes. *)
Definition delete_events (events : list Event) : list string :=
  flat_map (fun e => match e with ev_caches_delete n => [n] | _ => [] end) events.

(** A network that answers every request with status 200 and the URL of the
    request as body. *)
Definition all_ok : Env :=
  {| location_origin := sample_origin;
     network := fun req => net_response (sample_response 200 basic (url req)) |}.

(** A network on which only the docx library is missing (status 404). *)
Definition docx_missing : Env :=
  {| location_origin := sample_origin;
     network := fun req =>
       if startsWith (url req) "https://unpkg.com/docx"
       then net_response not_found
       else net_response (sample_response 200 basic (url req)) |}.

Definition script_request : Request :=
  sample_request "GET" "https://cdn.example/lib.js" [("Accept", "*/*")].

Definition cdn_script : Response := sample_response 200 cors "library".

(** An ok answer of status 206, and an ok answer that varies on everything:
    the cache refuses both. *)
Definition partial_content : Response := sample_response 206 basic "part".

Definition varying : Response :=
  {| status := 200; type := basic; resp_headers := [("Vary", "Accept, *")];
     body := "varying" |}.

(** A network on which only the manifest is answered with status 206. *)
Definition manifest_partial : Env :=
  {| location_origin := sample_origin;
     network := fun req =>
       if String.eqb (url req) "https://anti333.example/manifest.json"
       then net_response partial_content
       else net_response (sample_response 200 basic (url req)) |}.

(** A network on which the docx library is answered with status 206. *)
Definition docx_partial : Env :=
  {| location_origin := sample_origin;
     network := fun req =>
       if startsWith (url req) "https://unpkg.com/docx"
       then net_response partial_content
       else net_response (sample_response 200 basic (url req)) |}.
Definition server_error : Response := sample_response 500 basic "oops".

(** * Properties *)

(** ** The cache storage *)

Section CacheStorageFacts.

Implicit Types (cs : CacheStorage) (name key : string) (r : Response).

Lemma lookup_cache_put n name key r cs :
  CS.lookup_cache n (CS.put name key r cs) =
  if String.eqb n name then <[key := r]> <$> CS.lookup_cache n cs
  else CS.lookup_cache n cs.
Proof.
  induction cs as [|[m c] cs IH]; simpl.
  - by destruct (String.eqb n name).
  - destruct (String.eqb m name) eqn:Hm; simpl.
    + destruct (String.eqb m n) eqn:Hn.
      * apply String.eqb_eq in Hm, Hn. subst. by rewrite String.eqb_refl.
      * exact IH.
    + destruct (String.eqb m n) eqn:Hn.
      * apply String.eqb_eq in Hn. subst. by rewrite Hm.
      * exact IH.
Qed.

Lemma entry_put_same name key r cs :
  CS.has name cs = true ->
  CS.entry name key (CS.put name key r cs) = Some r.
Proof.
  unfold CS.has, CS.entry. rewrite lookup_cache_put, String.eqb_refl.
  destruct (CS.lookup_cache name cs); [|done].
  intros _. simpl. apply lookup_insert_eq.
Qed.

Lemma entry_put_other n k name key r cs :
  (n, k) <> (name, key) ->
  CS.entry n k (CS.put name key r cs) = CS.entry n k cs.
Proof.
  intros Hne. unfold CS.entry. rewrite lookup_cache_put.
  destruct (String.eqb n name) eqn:Hn; [|done].
  apply String.eqb_eq in Hn. subst n.
  destruct (CS.lookup_cache name cs); [|done]. simpl.
  apply lookup_insert_ne. congruence.
Qed.

Lemma has_put n name key r cs :
  CS.has n (CS.put name key r cs) = CS.has n cs.
Proof.
  unfold CS.has. rewrite lookup_cache_put.
  destruct (String.eqb n name); by destruct (CS.lookup_cache n cs).
Qed.

Lemma keys_put name key r cs : CS.keys (CS.put name key r cs) = CS.keys cs.
Proof.
  unfold CS.keys, CS.put. rewrite List.map_map. apply List.map_ext.
  intros [m c]. simpl. by destruct (String.eqb m name).
Qed.

Lemma lookup_cache_app n cs1 cs2 :
  CS.lookup_cache n (cs1 ++ cs2) =
  match CS.lookup_cache n cs1 with
  | Some c => Some c
  | None => CS.lookup_cache n cs2
  end.
Proof.
  induction cs1 as [|[m c] cs1 IH]; simpl; [done|].
  by destruct (String.eqb m n).
Qed.

Lemma has_open name cs : CS.has name (CS.open name cs) = true.
Proof.
  unfold CS.open. destruct (CS.has name cs) eqn:H; [done|].
  unfold CS.has in *. rewrite lookup_cache_app.
  destruct (CS.lookup_cache name cs); [done|].
  simpl. by rewrite String.eqb_refl.
Qed.

Lemma entry_open n k name cs :
  CS.entry n k (CS.open name cs) = CS.entry n k cs.
Proof.
  unfold CS.open. destruct (CS.has name cs) eqn:H; [done|].
  unfold CS.entry. rewrite lookup_cache_app.
  destruct (CS.lookup_cache n cs); [done|]. simpl.
  destruct (String.eqb name n); [apply lookup_empty | done].
Qed.

Lemma match_app key cs1 cs2 :
  CS.match_ key (cs1 ++ cs2) =
  match CS.match_ key cs1 with
  | Some r => Some r
  | None => CS.match_ key cs2
  end.
Proof.
  induction cs1 as [|[m c] cs1 IH]; simpl; [done|].
  by destruct (c !! key).
Qed.

Lemma match_open key name cs :
  CS.match_ key (CS.open name cs) = CS.match_ key cs.
Proof.
  unfold CS.open. destruct (CS.has name cs); [done|].
  rewrite match_app. destruct (CS.match_ key cs); [done|].
  simpl. by rewrite lookup_empty.
Qed.

(** A request that no namespace holds is in none of them. *)
Lemma match_None_entry key cs n :
  CS.match_ key cs = None -> CS.entry n key cs = None.
Proof.
  unfold CS.entry. induction cs as [|[m c] cs IH]; simpl; [done|].
  destruct (c !! key) eqn:Hc; [done|]. intros H.
  destruct (String.eqb m n); [done | by apply IH].
Qed.

(** Where the current namespace is the only one to hold the request, the
    search through all namespaces is the lookup in the current one. *)
Lemma match_only_current key name cs :
  NoDup (CS.keys cs) ->
  (forall n c, In (n, c) cs -> n <> name -> c !! key = None) ->
  CS.match_ key cs = CS.entry name key cs.
Proof.
  unfold CS.entry. induction cs as [|[m c] cs IH]; simpl; [done|].
  intros Hnd Hothers. apply NoDup_cons in Hnd as [Hm Hnd].
  destruct (String.eqb m name) eqn:Hmn.
  - apply String.eqb_eq in Hmn. subst m.
    destruct (c !! key) eqn:Hc; [done|].
    assert (Hrest : forall cs', (forall n c', In (n, c') cs' -> n <> name -> c' !! key = None) ->
                    name ∉ CS.keys cs' -> CS.match_ key cs' = None).
    { clear. induction cs' as [|[m c] cs' IH]; simpl; [done|].
      intros Hothers Hnot.
      apply not_elem_of_cons in Hnot as [Hne Hnot].
      rewrite (Hothers m c); [|by left|congruence].
      apply IH; [|done]. intros n c' Hin. apply Hothers. by right. }
    apply Hrest; [|done]. intros n c' Hin. apply Hothers. by right.
  - apply String.eqb_neq in Hmn.
    rewrite (Hothers m c); [|by left|done].
    apply IH; [done|]. intros n c' Hin. apply Hothers. by right.
Qed.

End CacheStorageFacts.

(** ** The fetch handler *)

Ltac promise_steps :=
  cbv [catch then_ detached fetch fetch_url caches_open caches_match
       caches_keys caches_delete cache_put read_caches update_caches
       console_log skipWaiting clients_claim emit resolve reject request_key];
  simpl.

Lemma app_assoc_cons {A} (l : list A) (x : A) (l' : list A) :
  (l ++ [x]) ++ l' = l ++ x :: l'.
Proof. by rewrite <- List.app_assoc. Qed.

(** One run of the revalidation of [request]. *)
Lemma revalidate_run request env w :
  snd (revalidate request env w) =
  match network env request with
  | net_response r =>
      if ok r
      then if put_accepts env (of_request request) r
           then {| caches := CS.put CACHE_NAME (url request) r
                               (CS.open CACHE_NAME (caches w));
                   trace := trace w ++ [ev_fetch request; ev_caches_open CACHE_NAME;
                                        ev_cache_put CACHE_NAME (url request) r] |}
           else {| caches := CS.open CACHE_NAME (caches w);
                   trace := trace w ++ [ev_fetch request; ev_caches_open CACHE_NAME] |}
      else {| caches := caches w; trace := trace w ++ [ev_fetch request] |}
  | _ => {| caches := caches w; trace := trace w ++ [ev_fetch request] |}
  end.
Proof.
  unfold revalidate. promise_steps.
  destruct (network env request) as [r| |]; simpl; [|done|done].
  destruct (ok r); promise_steps; [|done].
  destruct (put_accepts env (of_request request) r); promise_steps;
    by rewrite !app_assoc_cons.
Qed.

(** The revalidation is never rejected: it is fulfilled once the network has
    answered or failed, whatever the cache makes of the answer. *)
Lemma revalidate_settles request env w :
  fst (revalidate request env w) =
  match network env request with
  | net_stalled => Pending
  | _ => Fulfilled tt
  end.
Proof.
  unfold revalidate. promise_steps.
  destruct (network env request) as [r| |]; simpl; [|done|done].
  by destruct (ok r).
Qed.

(** The three branches of the handler for a GET request. *)
Lemma on_fetch_api request env w :
  method request = "GET" ->
  startsWith (pathname (URL_new (url request))) "/api/" = true ->
  on_fetch request env w =
  (respondWith match network env request with
               | net_response r => Fulfilled (Some r)
               | net_failure => Fulfilled (Some offline_response)
               | net_stalled => Pending
               end,
   {| caches := caches w; trace := trace w ++ [ev_fetch request] |}).
Proof.
  intros Hget Hapi. unfold on_fetch. rewrite Hget, Hapi. simpl.
  promise_steps. by destruct (network env request).
Qed.

Lemma on_fetch_hit request env w cached :
  method request = "GET" ->
  startsWith (pathname (URL_new (url request))) "/api/" = false ->
  CS.match_ (url request) (caches w) = Some cached ->
  on_fetch request env w =
  (respondWith (Fulfilled (Some cached)),
   snd (revalidate request env (looked_up request w))).
Proof.
  intros Hget Hapi Hhit. unfold on_fetch. rewrite Hget, Hapi. simpl.
  unfold then_ at 1. unfold caches_match. promise_steps. rewrite Hhit.
  fold (looked_up request w). by destruct (revalidate request env _).
Qed.

Lemma on_fetch_miss request env w :
  method request = "GET" ->
  startsWith (pathname (URL_new (url request))) "/api/" = false ->
  CS.match_ (url request) (caches w) = None ->
  on_fetch request env w = miss_path request env w.
Proof.
  intros Hget Hapi Hmiss. unfold on_fetch. rewrite Hget, Hapi. simpl.
  unfold then_ at 1. unfold caches_match. promise_steps. rewrite Hmiss.
  unfold miss_path. fold (looked_up request w).
  by destruct (fetch_and_cache request env _).
Qed.

(** The request that is not in the cache, answered by the network. *)
Lemma fetch_and_cache_response request env w r :
  network env request = net_response r ->
  fetch_and_cache request env w =
  (Fulfilled (Some r),
   if ok r && ResponseType_eqb (type r) basic
   then if put_accepts env (of_request request) r
        then {| caches := CS.put CACHE_NAME (url request) r
                            (CS.open CACHE_NAME (caches w));
                trace := trace w ++ [ev_fetch request; ev_caches_open CACHE_NAME;
                                     ev_cache_put CACHE_NAME (url request) r] |}
        else {| caches := CS.open CACHE_NAME (caches w);
                trace := trace w ++ [ev_fetch request; ev_caches_open CACHE_NAME] |}
   else {| caches := caches w; trace := trace w ++ [ev_fetch request] |}).
Proof.
  intros Hnet. unfold fetch_and_cache. promise_steps. rewrite Hnet.
  destruct (ok r && ResponseType_eqb (type r) basic); promise_steps; [|done].
  destruct (put_accepts env (of_request request) r); promise_steps;
    by rewrite !app_assoc_cons.
Qed.

(** The request that is not in the cache, with the network down. *)
Lemma fetch_and_cache_failure request env w :
  network env request = net_failure ->
  fetch_and_cache request env w =
  match headers_get (headers request) "accept" with
  | None => (Rejected TypeError,
             {| caches := caches w; trace := trace w ++ [ev_fetch request] |})
  | Some accept =>
      if includes accept "text/html"
      then (Fulfilled (CS.match_ (location_origin env +:+ "/") (caches w)),
            {| caches := caches w;
               trace := trace w ++ [ev_fetch request;
                                    ev_caches_match (location_origin env +:+ "/")] |})
      else (Fulfilled None,
            {| caches := caches w; trace := trace w ++ [ev_fetch request] |})
  end.
Proof.
  intros Hnet. unfold fetch_and_cache. promise_steps. rewrite Hnet.
  destruct (headers_get (headers request) "accept") as [accept|]; [|done].
  destruct (includes accept "text/html"); promise_steps; [|done].
  by rewrite !app_assoc_cons.
Qed.

(** When the cache takes the answer to a GET request. *)
Lemma put_accepts_request env request r :
  method request = "GET" ->
  put_accepts env (of_request request) r = true <->
  http_scheme (url request) = true /\ status r <> 206 /\ vary_star r = false.
Proof.
  intros Hget. unfold put_accepts, request_storable, put_refuses. simpl.
  rewrite Hget, String.eqb_refl, andb_true_r, andb_true_iff, negb_true_iff,
    orb_false_iff, Z.eqb_neq. tauto.
Qed.

Lemma put_accepts_taken env request r :
  method request = "GET" -> http_scheme (url request) = true ->
  put_refuses r = false ->
  put_accepts env (of_request request) r = true.
Proof.
  intros Hget Hhttp Htaken. unfold put_accepts, request_storable. simpl.
  by rewrite Hget, Hhttp, Htaken.
Qed.

Lemma put_accepts_refused env info r :
  put_refuses r = true -> put_accepts env info r = false.
Proof. intros H. unfold put_accepts. rewrite H. apply andb_false_r. Qed.

Lemma ResponseType_eqb_eq (a b : ResponseType) :
  ResponseType_eqb a b = true <-> a = b.
Proof. destruct a, b; simpl; split; congruence. Qed.

Lemma offline_body_eq : body offline_response = offline_body.
Proof. reflexivity. Qed.

(** C9. A request whose method is not GET is not intercepted: the handler
    returns without answering, reads and writes no cache, asks the network
    nothing, and the browser handles the request. *)
Theorem non_get_not_intercepted (request : Request) (env : Env) (w : World) :
  method request <> "GET" ->
  on_fetch request env w = (not_intercepted, w).
Proof.
  intros Hmethod. unfold on_fetch.
  apply String.eqb_neq in Hmethod. by rewrite Hmethod.
Qed.

Lemma non_get_not_intercepted_witness :
  on_fetch post_request offline (sample_world installed_caches) =
  (not_intercepted, sample_world installed_caches).
Proof. apply non_get_not_intercepted. discriminate. Defined.

(** C1. A GET request to a path under /api/ goes to the network only.  When
    the network fails the handler answers (its promise is fulfilled, not
    rejected) with the response of status 503, content type
    application/json and the body [{"error": OFFLINE_MESSAGE}], whatever the
    caches hold; when the network answers, its response is the answer as it
    is.  Either way the caches are left as they were and the request to the
    network is the only effect. *)
Theorem api_network_only (request : Request) (env : Env) (w : World) :
  method request = "GET" ->
  startsWith (pathname (URL_new (url request))) "/api/" = true ->
  (network env request = net_failure ->
     on_fetch request env w =
     (respondWith (Fulfilled (Some offline_response)),
      {| caches := caches w; trace := trace w ++ [ev_fetch request] |})) /\
  (forall r, network env request = net_response r ->
     on_fetch request env w =
     (respondWith (Fulfilled (Some r)),
      {| caches := caches w; trace := trace w ++ [ev_fetch request] |})) /\
  status offline_response = 503 /\
  headers_get (resp_headers offline_response) "content-type"
    = Some "application/json" /\
  body offline_response = offline_body /\
  OFFLINE_MESSAGE = "Offline. Проверьте подключение к интернету.".
Proof.
  intros Hget Hapi.
  pose proof (on_fetch_api request env w Hget Hapi) as Hrun.
  repeat split; try reflexivity.
  - intros Hnet. by rewrite Hrun, Hnet.
  - intros r Hnet. by rewrite Hrun, Hnet.
Qed.

Lemma api_network_only_witness :
  on_fetch api_request offline (sample_world installed_caches) =
  (respondWith (Fulfilled (Some offline_response)),
   {| caches := installed_caches; trace := [ev_fetch api_request] |}).
Proof.
  destruct (api_network_only api_request offline (sample_world installed_caches))
    as [Hdown _]; [reflexivity | reflexivity |].
  apply Hdown. reflexivity.
Defined.

(** C10. A GET request outside /api/ that no cache holds, with the network
    down and no Accept header: [headers.get('accept')] is null, the call of
    [includes] on it throws, and the promise of the handler is rejected with
    a TypeError; there is no fallback response and the rejection is not the
    network failure.  The caches are left as they were. *)
Theorem missing_accept_rejects (request : Request) (env : Env) (w : World) :
  method request = "GET" ->
  startsWith (pathname (URL_new (url request))) "/api/" = false ->
  CS.match_ (url request) (caches w) = None ->
  network env request = net_failure ->
  headers_get (headers request) "accept" = None ->
  fst (on_fetch request env w) = respondWith (Rejected TypeError) /\
  caches (snd (on_fetch request env w)) = caches w.
Proof.
  intros Hget Hapi Hmiss Hnet Haccept.
  rewrite on_fetch_miss by done. unfold miss_path.
  rewrite fetch_and_cache_failure by done. by rewrite Haccept.
Qed.

Lemma missing_accept_rejects_witness :
  fst (on_fetch bare_request offline (sample_world installed_caches))
    = respondWith (Rejected TypeError) /\
  caches (snd (on_fetch bare_request offline (sample_world installed_caches)))
    = installed_caches.
Proof.
  apply (missing_accept_rejects bare_request offline (sample_world installed_caches));
    reflexivity.
Defined.

(** C4, as the specification has it, fails: the request for an image that
    is not cached, with the network down, is answered with a promise
    fulfilled with [undefined]; the network failure is caught, not
    propagated. *)
Lemma cold_failure_is_caught :
  ~ spec_cold_failure image_request offline (sample_world installed_caches).
Proof.
  unfold spec_cold_failure. intros Hspec.
  specialize (Hspec eq_refl eq_refl eq_refl eq_refl).
  vm_compute in Hspec. discriminate.
Qed.

(** C4, amended. A GET request outside /api/ that no cache holds, with the
    network down and an Accept header: when the header includes text/html the
    answer is what [caches.match('/')] finds for the root document (the
    cached entry, [undefined] when there is none); otherwise the failure is
    caught and the promise is fulfilled with [undefined]: there is no
    substitute response and no rejection.  The caches are left as they
    were. *)
Theorem cold_failure_fallback (request : Request) (env : Env) (w : World)
  (accept : string) :
  method request = "GET" ->
  startsWith (pathname (URL_new (url request))) "/api/" = false ->
  CS.match_ (url request) (caches w) = None ->
  network env request = net_failure ->
  headers_get (headers request) "accept" = Some accept ->
  fst (on_fetch request env w) =
  respondWith (Fulfilled (if includes accept "text/html"
                          then CS.match_ (location_origin env +:+ "/") (caches w)
                          else None)) /\
  caches (snd (on_fetch request env w)) = caches w.
Proof.
  intros Hget Hapi Hmiss Hnet Haccept.
  rewrite on_fetch_miss by done. unfold miss_path.
  rewrite fetch_and_cache_failure by done. rewrite Haccept.
  by destruct (includes accept "text/html").
Qed.

Lemma cold_failure_fallback_witness :
  fst (on_fetch new_page_request offline (sample_world installed_caches))
    = respondWith (Fulfilled (Some cached_root)) /\
  caches (snd (on_fetch new_page_request offline (sample_world installed_caches)))
    = installed_caches.
Proof.
  apply (cold_failure_fallback new_page_request offline
           (sample_world installed_caches) "text/html,application/xhtml+xml");
    reflexivity.
Defined.

(** C5, as the specification has it, fails: a same-origin response of
    status 404 is returned and is not stored. *)
Lemma not_found_is_not_cached :
  ~ spec_cold_success image_request (online not_found)
      (sample_world installed_caches) not_found.
Proof.
  unfold spec_cold_success. intros Hspec.
  destruct (Hspec eq_refl eq_refl eq_refl eq_refl) as [_ [_ Hstored]].
  specialize (Hstored eq_refl). vm_compute in Hstored. discriminate.
Qed.

(** The same sentence fails for an ok answer too: a same-origin response of
    status 206 is returned and is not stored, the cache refuses it. *)
Lemma partial_content_is_not_cached :
  ~ spec_cold_success image_request (online partial_content)
      (sample_world installed_caches) partial_content.
Proof.
  unfold spec_cold_success. intros Hspec.
  destruct (Hspec eq_refl eq_refl eq_refl eq_refl) as [_ [_ Hstored]].
  specialize (Hstored eq_refl). vm_compute in Hstored. discriminate.
Qed.

(** C5, amended. A GET request outside /api/ that no cache holds and that the
    network answers: the response of the network is the answer, and a copy is
    stored in the current namespace under the URL of the request if and only
    if the response has an ok status (200 to 299), is of type basic, and the
    cache takes it: its status is not 206, its Vary header has no [*], and
    the URL of the request is http or https. *)
Theorem cold_success_cached_iff (request : Request) (env : Env) (w : World)
  (r : Response) :
  method request = "GET" ->
  startsWith (pathname (URL_new (url request))) "/api/" = false ->
  CS.match_ (url request) (caches w) = None ->
  network env request = net_response r ->
  fst (on_fetch request env w) = respondWith (Fulfilled (Some r)) /\
  (CS.entry CACHE_NAME (url request) (caches (snd (on_fetch request env w))) = Some r
   <-> (ok r = true /\ type r = basic /\
        (status r <> 206) /\ vary_star r = false /\
        http_scheme (url request) = true)).
Proof.
  intros Hget Hapi Hmiss Hnet.
  rewrite on_fetch_miss by done. unfold miss_path.
  rewrite (fetch_and_cache_response _ _ _ r) by done. cbn [fst snd].
  split; [done|].
  pose proof (put_accepts_request env request r Hget) as Haccepts.
  destruct (ok r) eqn:Hok; cbn [andb].
  - destruct (ResponseType_eqb (type r) basic) eqn:Htype.
    + apply ResponseType_eqb_eq in Htype.
      destruct (put_accepts env (of_request request) r); cbn [caches].
      * split; [|intros _; apply entry_put_same, has_open].
        intros _. by destruct Haccepts as [(? & ? & ?) _].
      * rewrite entry_open, (match_None_entry _ _ _ Hmiss). split; [done|].
        intros (_ & _ & H206 & Hvary & Hhttp).
        by destruct Haccepts as [_ Hyes]; specialize (Hyes (conj Hhttp (conj H206 Hvary))).
    + cbn [caches]. rewrite (match_None_entry _ _ _ Hmiss). split; [done|].
      intros (_ & Hbasic & _). apply ResponseType_eqb_eq in Hbasic. congruence.
  - cbn [caches]. rewrite (match_None_entry _ _ _ Hmiss).
    split; [done | by intros []].
Qed.

Lemma cold_success_cached_iff_witness :
  fst (on_fetch new_page_request (online fresh_index) (sample_world installed_caches))
    = respondWith (Fulfilled (Some fresh_index)) /\
  (CS.entry CACHE_NAME (url new_page_request)
     (caches (snd (on_fetch new_page_request (online fresh_index)
                     (sample_world installed_caches)))) = Some fresh_index
   <-> (ok fresh_index = true /\ type fresh_index = basic /\
        (status fresh_index <> 206) /\ vary_star fresh_index = false /\
        http_scheme (url new_page_request) = true)).
Proof.
  apply (cold_success_cached_iff new_page_request (online fresh_index)
           (sample_world installed_caches) fresh_index); reflexivity.
Defined.

(** C2, as the specification has it, fails: the index page is cached and
    the network answers its revalidation with status 206, an ok status;
    [cache.put] rejects that answer and the entry stays what it was. *)
Lemma partial_content_is_not_revalidated :
  ~ spec_revalidation index_request (online partial_content)
      (sample_world installed_caches) partial_content.
Proof.
  unfold spec_revalidation. intros Hspec.
  assert (exists cached, CS.match_ (url index_request)
                           (caches (sample_world installed_caches)) = Some cached)
    as Hhit by (by exists cached_index).
  specialize (Hspec eq_refl eq_refl Hhit eq_refl eq_refl).
  vm_compute in Hspec. discriminate.
Qed.

(** C2, amended. A GET request outside /api/ that the cache holds: the cached
    response is the answer whatever the network does, also when it never
    answers; the cache is looked up before the network is asked; when the
    network answers with an ok status and the cache takes the answer (its
    status is not 206, its Vary header has no [*], the URL of the request is
    http or https), the current namespace holds the fresh response under the
    URL of the request afterwards and every other entry is as it was; when
    the cache refuses the answer, every entry is as it was; when the network
    fails, the caches are as they were.  The revalidation handed to
    [event.waitUntil] is never rejected: it is fulfilled once the network has
    answered or failed. *)
Theorem cached_first_then_revalidated (request : Request) (env : Env) (w : World)
  (cached : Response) :
  method request = "GET" ->
  startsWith (pathname (URL_new (url request))) "/api/" = false ->
  CS.match_ (url request) (caches w) = Some cached ->
  (forall env', fst (on_fetch request env' w) = respondWith (Fulfilled (Some cached))) /\
  (exists rest, trace (snd (on_fetch request env w)) =
                trace w ++ ev_caches_match (url request) :: ev_fetch request :: rest) /\
  (forall fresh, network env request = net_response fresh -> ok fresh = true ->
     http_scheme (url request) = true -> status fresh <> 206 ->
     vary_star fresh = false ->
     CS.entry CACHE_NAME (url request) (caches (snd (on_fetch request env w)))
       = Some fresh /\
     forall n k, (n, k) <> (CACHE_NAME, url request) ->
       CS.entry n k (caches (snd (on_fetch request env w))) = CS.entry n k (caches w)) /\
  (forall fresh, network env request = net_response fresh -> ok fresh = true ->
     put_refuses fresh = true ->
     forall n k,
       CS.entry n k (caches (snd (on_fetch request env w))) = CS.entry n k (caches w)) /\
  (network env request = net_failure ->
     caches (snd (on_fetch request env w)) = caches w) /\
  snd (on_fetch request env w) = snd (revalidate request env (looked_up request w)) /\
  (forall e, fst (revalidate request env (looked_up request w)) <> Rejected e) /\
  (network env request <> net_stalled ->
     fst (revalidate request env (looked_up request w)) = Fulfilled tt).
Proof.
  intros Hget Hapi Hhit.
  pose proof (on_fetch_hit request env w cached Hget Hapi Hhit) as Hrun.
  split; [|split; [|split; [|split; [|split; [|split; [|split]]]]]].
  - intros env'. by rewrite (on_fetch_hit _ _ _ cached).
  - rewrite Hrun. cbn [snd]. rewrite revalidate_run.
    destruct (network env request) as [r| |];
      [destruct (ok r); [destruct (put_accepts env (of_request request) r)|]|..];
      simpl; rewrite app_assoc_cons; eauto.
  - intros fresh Hnet Hok Hhttp H206 Hvary.
    assert (put_accepts env (of_request request) fresh = true) as Haccepts
      by (by apply put_accepts_request).
    rewrite Hrun. cbn [snd]. rewrite revalidate_run, Hnet, Hok, Haccepts.
    cbn [caches]. split.
    + apply entry_put_same, has_open.
    + intros n k Hne. by rewrite entry_put_other, entry_open.
  - intros fresh Hnet Hok Hrefused n k.
    rewrite Hrun. cbn [snd].
    rewrite revalidate_run, Hnet, Hok, (put_accepts_refused _ _ _ Hrefused).
    cbn [caches]. apply entry_open.
  - intros Hnet. rewrite Hrun. cbn [snd]. by rewrite revalidate_run, Hnet.
  - by rewrite Hrun.
  - intros e. rewrite revalidate_settles. by destruct (network env request).
  - intros Hanswered. rewrite revalidate_settles.
    by destruct (network env request).
Qed.

Lemma cached_first_then_revalidated_witness :
  fst (on_fetch index_request stalled (sample_world installed_caches))
    = respondWith (Fulfilled (Some cached_index)) /\
  CS.entry CACHE_NAME (url index_request)
    (caches (snd (on_fetch index_request (online fresh_index)
                    (sample_world installed_caches)))) = Some fresh_index /\
  CS.entry CACHE_NAME (url index_request)
    (caches (snd (on_fetch index_request (online varying)
                    (sample_world installed_caches)))) = Some cached_index /\
  caches (snd (on_fetch index_request offline (sample_world installed_caches)))
    = installed_caches.
Proof.
  split; [|split; [|split]].
  - apply (cached_first_then_revalidated index_request stalled
             (sample_world installed_caches) cached_index); reflexivity.
  - destruct (cached_first_then_revalidated index_request (online fresh_index)
                (sample_world installed_caches) cached_index)
      as (_ & _ & Hfresh & _); [reflexivity | reflexivity | reflexivity |].
    apply (Hfresh fresh_index); try reflexivity. discriminate.
  - destruct (cached_first_then_revalidated index_request (online varying)
                (sample_world installed_caches) cached_index)
      as (_ & _ & _ & Hrefused & _); [reflexivity | reflexivity | reflexivity |].
    rewrite (Hrefused varying); reflexivity.
  - destruct (cached_first_then_revalidated index_request offline
                (sample_world installed_caches) cached_index)
      as (_ & _ & _ & _ & Hdown & _); [reflexivity | reflexivity | reflexivity |].
    apply Hdown. reflexivity.
Defined.

(** C8, as the specification has it, fails: the index page that only the
    namespace of the previous version holds is a cache hit, served from that
    namespace. *)
Lemma stale_namespace_is_a_hit :
  ~ spec_lookup_current index_request (online fresh_index)
      (sample_world stale_caches).
Proof.
  unfold spec_lookup_current. intros Hspec.
  specialize (Hspec eq_refl eq_refl eq_refl).
  apply (f_equal fst) in Hspec. vm_compute in Hspec. discriminate.
Qed.

(** C8, amended. The lookup that decides between the two strategies searches
    every namespace of the cache storage, in the order of their creation
    ([caches.match]).  Where no namespace other than the current one holds
    the request, the decision is that of the current namespace: its entry is
    the answer, and a request it does not hold goes the way of a request that
    is not cached. *)
Theorem lookup_current_when_sole_holder (request : Request) (env : Env) (w : World) :
  NoDup (CS.keys (caches w)) ->
  (forall n c, In (n, c) (caches w) -> n <> CACHE_NAME -> c !! url request = None) ->
  method request = "GET" ->
  startsWith (pathname (URL_new (url request))) "/api/" = false ->
  (forall cached, CS.entry CACHE_NAME (url request) (caches w) = Some cached ->
     fst (on_fetch request env w) = respondWith (Fulfilled (Some cached))) /\
  (CS.entry CACHE_NAME (url request) (caches w) = None ->
     on_fetch request env w = miss_path request env w).
Proof.
  intros Hnodup Hothers Hget Hapi.
  pose proof (match_only_current (url request) CACHE_NAME (caches w) Hnodup Hothers)
    as Hlookup.
  split.
  - intros cached Hentry. rewrite <- Hlookup in Hentry.
    by rewrite (on_fetch_hit _ _ _ cached).
  - intros Hentry. rewrite <- Hlookup in Hentry. by apply on_fetch_miss.
Qed.

Lemma lookup_current_when_sole_holder_witness :
  fst (on_fetch index_request stalled (sample_world installed_caches))
    = respondWith (Fulfilled (Some cached_index)).
Proof.
  destruct (lookup_current_when_sole_holder index_request stalled
              (sample_world installed_caches)) as [Hhit _].
  - apply NoDup_singleton.
  - intros n c [Heq | []] Hne. inversion Heq. congruence.
  - reflexivity.
  - reflexivity.
  - apply Hhit. reflexivity.
Defined.

(** ** The activate handler *)

Section Activate.

Implicit Types (cs : CacheStorage) (names : list string).

Lemma filter_twice {A} (f g : A -> bool) (l : list A) :
  List.filter f (List.filter g l) = List.filter (fun x => g x && f x) l.
Proof.
  induction l as [|x l IH]; simpl; [done|].
  destruct (g x); simpl; [|done]. destruct (f x); by rewrite IH.
Qed.

Lemma filter_all {A} (l : list A) : List.filter (fun _ => true) l = l.
Proof. induction l as [|x l IH]; simpl; by rewrite ?IH. Qed.

Lemma delete_each names cs :
  fold_left (fun acc n => CS.delete n acc) names cs =
  List.filter (fun nc => negb (existsb (String.eqb (fst nc)) names)) cs.
Proof.
  revert cs. induction names as [|n names IH]; intros cs; simpl.
  - by rewrite filter_all.
  - rewrite IH. unfold CS.delete. rewrite filter_twice.
    apply List.filter_ext. intros [m c]. simpl.
    by destruct (String.eqb m n), (existsb (String.eqb m) names).
Qed.

(** Deleting every name but the current one leaves the current namespace. *)
Lemma delete_stale cs :
  fold_left (fun acc n => CS.delete n acc)
    (List.filter (fun name => negb (String.eqb name CACHE_NAME)) (CS.keys cs)) cs
  = List.filter is_current cs.
Proof.
  rewrite delete_each. apply List.filter_ext_in. intros [m c] Hin.
  unfold is_current. simpl.
  destruct (String.eqb m CACHE_NAME) eqn:Hm; simpl.
  - apply negb_true_iff, not_true_iff_false. intros Hex.
    apply existsb_exists in Hex as (n & Hn & Heq).
    apply String.eqb_eq in Heq. subst n.
    apply List.filter_In in Hn as [_ Hn]. by rewrite Hm in Hn.
  - apply negb_false_iff, existsb_exists. exists m. split.
    + apply List.filter_In. split; [|by rewrite Hm].
      unfold CS.keys. apply (List.in_map fst _ _ Hin).
    + apply String.eqb_refl.
Qed.

Lemma lookup_current_filter cs :
  CS.lookup_cache CACHE_NAME (List.filter is_current cs)
  = CS.lookup_cache CACHE_NAME cs.
Proof.
  induction cs as [|[m c] cs IH]; simpl; [done|]. unfold is_current at 1. simpl.
  destruct (String.eqb m CACHE_NAME) eqn:Hm; simpl; by rewrite ?Hm.
Qed.

Lemma keys_current_filter cs n :
  In n (CS.keys (List.filter is_current cs)) -> n = CACHE_NAME.
Proof.
  unfold CS.keys. intros Hin. apply List.in_map_iff in Hin as ([m c] & <- & Hin).
  apply List.filter_In in Hin as [_ Hm]. by apply String.eqb_eq in Hm.
Qed.

Lemma delete_old_run n env w :
  delete_old n env w =
  (Fulfilled (CS.has n (caches w)),
   {| caches := CS.delete n (caches w);
      trace := (trace w ++ [ev_log ("[SW] Deleting old cache: " +:+ n)])
               ++ [ev_caches_delete n] |}).
Proof. unfold delete_old. by promise_steps. Qed.

(** The deletions, one after the other: none is rejected, none is left
    pending. *)
Lemma run_each_delete names env w :
  exists existed : list bool,
    run_each (List.map delete_old names) env w =
    (List.map Fulfilled existed,
     {| caches := fold_left (fun acc n => CS.delete n acc) names (caches w);
        trace := trace w ++ deletion_events names |}).
Proof.
  revert w. induction names as [|n names IH]; intros w; cbn [run_each List.map].
  - exists []. simpl. rewrite List.app_nil_r. by destruct w.
  - rewrite delete_old_run.
    match goal with |- context [run_each _ env ?w1] => destruct (IH w1) as [bs ->] end.
    exists (CS.has n (caches w) :: bs). simpl.
    by rewrite !app_assoc_cons.
Qed.

Lemma all_fulfilled {A} (vs : list A) :
  first_rejection (List.map Fulfilled vs) = None /\
  existsb is_pending (List.map Fulfilled vs) = false.
Proof. induction vs as [|v vs [IH1 IH2]]; simpl; auto. Qed.

(** One run of the activate handler. *)
Lemma activate_run env w :
  activate env w =
  (Fulfilled tt,
   {| caches := List.filter is_current (caches w);
      trace := trace w ++
               ([ev_log "[SW] Activating service worker..."; ev_caches_keys]
                ++ deletion_events
                     (List.filter (fun name => negb (String.eqb name CACHE_NAME))
                        (CS.keys (caches w))))
               ++ [ev_clients_claim] |}).
Proof.
  unfold activate, Promise_all. promise_steps.
  match goal with |- context [run_each (List.map delete_old ?ns) env ?w1] =>
    destruct (run_each_delete ns env w1) as [bs ->] end.
  destruct (all_fulfilled bs) as [-> ->]. simpl.
  rewrite delete_stale. f_equal. f_equal.
  by rewrite <- !List.app_assoc.
Qed.

End Activate.

(** C6. The activate handler completes; afterwards no namespace that existed
    before under a name other than CACHE_NAME exists, the current namespace
    is there with the entries it had, and [clients.claim()] comes last, after
    the deletion of every such namespace. *)
Theorem activate_evicts_stale (env : Env) (w : World) (current : Cache) :
  CS.lookup_cache CACHE_NAME (caches w) = Some current ->
  fst (activate env w) = Fulfilled tt /\
  (forall n, In n (CS.keys (caches w)) -> n <> CACHE_NAME ->
     ~ In n (CS.keys (caches (snd (activate env w))))) /\
  CS.lookup_cache CACHE_NAME (caches (snd (activate env w))) = Some current /\
  (exists cleanup,
     trace (snd (activate env w)) = trace w ++ cleanup ++ [ev_clients_claim] /\
     ~ In ev_clients_claim cleanup /\
     forall n, In n (CS.keys (caches w)) -> n <> CACHE_NAME ->
       In (ev_caches_delete n) cleanup).
Proof.
  intros Hcurrent. rewrite activate_run. simpl. split; [done|]. split; [|split].
  - intros n _ Hne Hin. by apply keys_current_filter in Hin.
  - by rewrite lookup_current_filter.
  - exists ([ev_log "[SW] Activating service worker..."; ev_caches_keys]
            ++ deletion_events
                 (List.filter (fun name => negb (String.eqb name CACHE_NAME))
                    (CS.keys (caches w)))).
    split; [reflexivity|]. split.
    + intros [Heq | [Heq | Hin]]; [discriminate | discriminate |].
      unfold deletion_events in Hin. apply List.in_flat_map in Hin as (n & _ & Hin).
      destruct Hin as [Heq | [Heq | []]]; discriminate.
    + intros n Hin Hne. right. right. unfold deletion_events.
      apply List.in_flat_map. exists n. split; [|by right; left].
      apply List.filter_In. split; [done|].
      apply negb_true_iff. by apply String.eqb_neq.
Qed.

Lemma activate_evicts_stale_witness :
  fst (activate offline (sample_world upgraded_caches)) = Fulfilled tt /\
  CS.lookup_cache CACHE_NAME (caches (snd (activate offline (sample_world upgraded_caches))))
    = Some {["https://anti333.example/" := cached_root]} /\
  ~ In "anti333-cache-v1"
      (CS.keys (caches (snd (activate offline (sample_world upgraded_caches))))).
Proof.
  destruct (activate_evicts_stale offline (sample_world upgraded_caches)
              {["https://anti333.example/" := cached_root]})
    as (Hdone & Hgone & Hkept & _); [reflexivity|].
  split; [exact Hdone|]. split; [exact Hkept|].
  apply Hgone; [simpl; auto | discriminate].
Defined.

(** ** The install handler *)

Section Install.

Opaque STATIC_ASSETS EXTERNAL_ASSETS.

(** The install handler when a static asset cannot be fetched. *)
Lemma install_run_failed env w :
  existsb addAll_failed (List.map (network env) (static_requests env)) = true ->
  install env w =
  (Rejected TypeError,
   {| caches := CS.open CACHE_NAME (caches w);
      trace := trace w ++ install_prologue env |}).
Proof.
  intros Hfailed. unfold install. promise_steps. unfold cache_addAll. simpl.
  fold (static_requests env). rewrite Hfailed. simpl.
  unfold install_prologue. simpl. by rewrite !app_assoc_cons.
Qed.

(** The install handler when a static asset is not answered and none has
    failed. *)
Lemma install_run_stalled env w :
  existsb addAll_failed (List.map (network env) (static_requests env)) = false ->
  existsb addAll_stalled (List.map (network env) (static_requests env)) = true ->
  install env w =
  (Pending,
   {| caches := CS.open CACHE_NAME (caches w);
      trace := trace w ++ install_prologue env |}).
Proof.
  intros Hfailed Hstalled. unfold install. promise_steps. unfold cache_addAll. simpl.
  fold (static_requests env). rewrite Hfailed, Hstalled. simpl.
  unfold install_prologue. simpl. by rewrite !app_assoc_cons.
Qed.

Transparent STATIC_ASSETS EXTERNAL_ASSETS.

End Install.

Section InstallExternal.

Implicit Types (cs : CacheStorage) (refs : list string).

Lemma cache_external_run cache ref env w :
  cache_external cache ref env w =
  (external_outcome env ref,
   {| caches := external_store env cache (caches w) ref;
      trace := trace w ++ external_events env cache ref |}).
Proof.
  unfold cache_external, external_outcome, external_store, external_events.
  promise_steps.
  destruct (network env (Request_new env ref "cors")) as [r| |]; simpl;
    rewrite ?app_assoc_cons; try done.
  destruct (ok r); promise_steps; rewrite ?app_assoc_cons; [|done].
  destruct (put_accepts env (of_url ref) r); promise_steps;
    by rewrite ?app_assoc_cons.
Qed.

(** The attempts for the external assets, one after the other. *)
Lemma run_each_external cache refs env w :
  run_each (List.map (cache_external cache) refs) env w =
  (List.map (external_outcome env) refs,
   {| caches := fold_left (external_store env cache) refs (caches w);
      trace := trace w ++ flat_map (external_events env cache) refs |}).
Proof.
  revert w. induction refs as [|ref refs IH]; intros w; cbn [run_each List.map].
  - simpl. rewrite List.app_nil_r. by destruct w.
  - rewrite cache_external_run, IH. simpl. by rewrite <- List.app_assoc.
Qed.

Lemma has_external_store env cache cs ref n :
  CS.has n (external_store env cache cs ref) = CS.has n cs.
Proof.
  unfold external_store.
  destruct (network env (Request_new env ref "cors")) as [r| |]; try done.
  destruct (ok r && put_accepts env (of_url ref) r); [apply has_put | done].
Qed.

Lemma has_fold_external_store env cache refs cs n :
  CS.has n (fold_left (external_store env cache) refs cs) = CS.has n cs.
Proof.
  revert cs. induction refs as [|ref refs IH]; intros cs; simpl; [done|].
  by rewrite IH, has_external_store.
Qed.

(** An attempt leaves the entries of the other URLs as they are. *)
Lemma entry_external_store_other env cache cs ref n k :
  k <> absolute env ref ->
  CS.entry n k (external_store env cache cs ref) = CS.entry n k cs.
Proof.
  intros Hne. unfold external_store.
  destruct (network env (Request_new env ref "cors")) as [r| |]; try done.
  destruct (ok r && put_accepts env (of_url ref) r); [|done].
  apply entry_put_other. congruence.
Qed.

Lemma entry_fold_external_store_other env cache refs cs n k :
  ~ In k (List.map (absolute env) refs) ->
  CS.entry n k (fold_left (external_store env cache) refs cs) = CS.entry n k cs.
Proof.
  revert cs. induction refs as [|ref refs IH]; intros cs Hnot; simpl; [done|].
  rewrite IH, entry_external_store_other; [done| |]; intros Hin; apply Hnot;
    simpl; auto.
Qed.





Lemma existsb_false {A} (f : A -> bool) (l : list A) :
  existsb f l = false <-> forall x, In x l -> f x = false.
Proof.
  induction l as [|x l IH]; simpl; [by split|].
  rewrite orb_false_iff, IH. split.
  - intros [Hx Hl] y [<- | Hin]; auto.
  - intros Hall. split; [|intros]; apply Hall; auto.
Qed.

End InstallExternal.

Section InstallRuns.

Opaque STATIC_ASSETS EXTERNAL_ASSETS.

(** The install handler when every static asset is answered with an ok
    status. *)
Lemma install_run_ok env w :
  existsb addAll_failed (List.map (network env) (static_requests env)) = false ->
  existsb addAll_stalled (List.map (network env) (static_requests env)) = false ->
  install env w =
  (if existsb is_pending (List.map (external_outcome env) EXTERNAL_ASSETS)
   then Pending else Fulfilled tt,
   {| caches := fold_left (external_store env CACHE_NAME) EXTERNAL_ASSETS
                  (put_entries CACHE_NAME (static_entries env)
                     (CS.open CACHE_NAME (caches w)));
      trace := trace w ++ install_prologue env
               ++ put_events CACHE_NAME (static_entries env)
               ++ flat_map (external_events env CACHE_NAME) EXTERNAL_ASSETS
               ++ (if existsb is_pending (List.map (external_outcome env) EXTERNAL_ASSETS)
                   then [] else [ev_skipWaiting]) |}).
Proof.
  intros Hfailed Hstalled. unfold install, Promise_allSettled. promise_steps.
  unfold cache_addAll. simpl.
  fold (static_requests env). rewrite Hfailed, Hstalled. simpl.
  fold (static_entries env). rewrite run_each_external. simpl.
  unfold install_prologue.
  destruct (existsb is_pending (List.map (external_outcome env) EXTERNAL_ASSETS));
    simpl; rewrite ?List.app_nil_r, <- ?List.app_assoc; simpl;
    by rewrite <- ?List.app_assoc.
Qed.

Transparent STATIC_ASSETS EXTERNAL_ASSETS.

End InstallRuns.

Lemma has_put_entries cache entries cs n :
  CS.has n (put_entries cache entries cs) = CS.has n cs.
Proof.
  unfold put_entries. revert cs.
  induction entries as [|[k r] entries IH]; intros cs; simpl; [done|].
  by rewrite IH, has_put.
Qed.

(** [cache.addAll] takes the static assets exactly when each of them is
    answered with an ok status and a response the cache does not refuse. *)
Lemma statics_succeed env :
  (forall ref, In ref STATIC_ASSETS ->
     exists r, network env (Request_new env ref "cors") = net_response r /\
               ok r = true /\ put_refuses r = false)
  <->
  existsb addAll_failed (List.map (network env) (static_requests env)) = false /\
  existsb addAll_stalled (List.map (network env) (static_requests env)) = false.
Proof.
  unfold static_requests. rewrite List.map_map, !existsb_false. split.
  - intros Hall. split; intros o Hin;
      apply List.in_map_iff in Hin as (ref & <- & Hin);
      destruct (Hall ref Hin) as (r & -> & Hok & Htaken); simpl;
      by rewrite ?Hok, ?Htaken.
  - intros [Hfailed Hstalled] ref Hin.
    specialize (Hfailed _ (List.in_map _ _ _ Hin)).
    specialize (Hstalled _ (List.in_map _ _ _ Hin)). simpl in *.
    destruct (network env (Request_new env ref "cors")) as [r| |]; try done.
    exists r. split; [done|]. simpl in Hfailed.
    apply orb_false_iff in Hfailed as [Hok Htaken].
    split; [by apply negb_false_iff | done].
Qed.

(** What each static asset was answered, when [cache.addAll] took them. *)
Lemma statics_answered_ok env :
  existsb addAll_failed (List.map (network env) (static_requests env)) = false ->
  existsb addAll_stalled (List.map (network env) (static_requests env)) = false ->
  forall s, In s STATIC_ASSETS ->
    exists r, network env (Request_new env s "cors") = net_response r /\ ok r = true.
Proof.
  intros Hfailed Hstalled s Hs.
  destruct (proj2 (statics_succeed env) (conj Hfailed Hstalled) s Hs)
    as (r & Hnet & Hok & _).
  by exists r.
Qed.

(** *** The static and the external assets have different URLs *)

Lemma length_append (a b : string) :
  String.length (a +:+ b) = (String.length a + String.length b)%nat.
Proof. induction a as [|c a IH]; simpl; by rewrite ?IH. Qed.

Lemma slice_append (a b : string) : slice (String.length a) (a +:+ b) = b.
Proof. induction a as [|c a IH]; simpl; [by destruct b | done]. Qed.

Lemma endsWith_append (a b : string) : endsWith (a +:+ b) b = true.
Proof.
  unfold endsWith. rewrite length_append.
  replace (String.length a + String.length b - String.length b)%nat
    with (String.length a) by lia.
  rewrite slice_append. apply String.eqb_refl.
Qed.

Lemma static_url_not_external env s ext :
  In s STATIC_ASSETS -> In ext EXTERNAL_ASSETS ->
  Request_new env s "cors" <> Request_new env ext "cors".
Proof.
  intros Hs Hext Heq. apply (f_equal url) in Heq.
  assert (Hends : endsWith ext s = false).
  { assert (List.Forall (fun e => List.Forall (fun a => endsWith e a = false)
                                    STATIC_ASSETS) EXTERNAL_ASSETS) as Hall
      by (vm_compute; repeat constructor).
    rewrite List.Forall_forall in Hall. specialize (Hall ext Hext).
    rewrite List.Forall_forall in Hall. by apply Hall. }
  assert (url (Request_new env ext "cors") = ext) as Hurl.
  { assert (List.Forall (fun e => url (Request_new env e "cors") = e)
              EXTERNAL_ASSETS) as Hall by (repeat constructor).
    rewrite List.Forall_forall in Hall. by apply Hall. }
  assert (url (Request_new env s "cors") = location_origin env +:+ s) as Hurl'.
  { assert (List.Forall (fun a => url (Request_new env a "cors")
                                  = location_origin env +:+ a)
              STATIC_ASSETS) as Hall by (repeat constructor).
    rewrite List.Forall_forall in Hall. by apply Hall. }
  rewrite Hurl, Hurl' in Heq. rewrite <- Heq, endsWith_append in Hends. done.
Qed.

Lemma external_assets_distinct env :
  List.NoDup (List.map (absolute env) EXTERNAL_ASSETS).
Proof.
  change (List.map (absolute env) EXTERNAL_ASSETS) with EXTERNAL_ASSETS.
  apply NoDup_ListNoDup. apply (bool_decide_unpack _). by vm_compute.
Qed.

Lemma external_asset_absolute env ext :
  In ext EXTERNAL_ASSETS -> absolute env ext = ext.
Proof.
  assert (List.Forall (fun e => absolute env e = e) EXTERNAL_ASSETS) as Hall
    by (repeat constructor).
  rewrite List.Forall_forall in Hall. apply Hall.
Qed.

(** Up to the requests for the static assets, no external asset is asked
    for, nothing is stored and the worker does not skip waiting. *)
Lemma prologue_events env :
  (forall ext, In ext EXTERNAL_ASSETS ->
     ~ In (ev_fetch (Request_new env ext "cors")) (install_prologue env)) /\
  (forall n k r, ~ In (ev_cache_put n k r) (install_prologue env)) /\
  ~ In ev_skipWaiting (install_prologue env).
Proof.
  unfold install_prologue. split; [|split].
  - intros ext Hext [Heq | [Heq | [Heq | [Heq | Hin]]]]; try discriminate.
    apply List.in_map_iff in Hin as (req & Heq & Hin). injection Heq as ->.
    unfold static_requests in Hin. apply List.in_map_iff in Hin as (s & Heq & Hs).
    by apply (static_url_not_external env s ext).
  - intros n k r [Heq | [Heq | [Heq | [Heq | Hin]]]]; try discriminate.
    apply List.in_map_iff in Hin as (req & Heq & _). discriminate.
  - intros [Heq | [Heq | [Heq | [Heq | Hin]]]]; try discriminate.
    apply List.in_map_iff in Hin as (req & Heq & _). discriminate.
Qed.

(** In every run of the install handler, an external asset is asked for only
    when every static asset has been answered with an ok status. *)
Lemma external_attempt_needs_statics env w :
  exists new,
    trace (snd (install env w)) = trace w ++ new /\
    forall ext, In ext EXTERNAL_ASSETS ->
      In (ev_fetch (Request_new env ext "cors")) new ->
      forall s, In s STATIC_ASSETS ->
        exists r, network env (Request_new env s "cors") = net_response r /\ ok r = true.
Proof.
  destruct (existsb addAll_failed (List.map (network env) (static_requests env)))
    eqn:Hfailed.
  - rewrite install_run_failed by done. exists (install_prologue env).
    split; [done|]. intros ext Hext Hin. by apply prologue_events in Hin.
  - destruct (existsb addAll_stalled (List.map (network env) (static_requests env)))
      eqn:Hstalled.
    + rewrite install_run_stalled by done. exists (install_prologue env).
      split; [done|]. intros ext Hext Hin. by apply prologue_events in Hin.
    + rewrite install_run_ok by done. eexists. split; [reflexivity|].
      intros _ _ _. by apply statics_answered_ok.
Qed.

(** C3. When one static asset cannot be fetched (the network fails, or
    answers with a status that is not ok or a response the cache refuses),
    the install step fails: its
    promise is rejected, every entry of every namespace is as it was (the
    current namespace is opened and nothing is added to it), the requests
    for the static assets are all the handler did, so no external asset is
    asked for, nothing is stored and the worker does not skip waiting.  In
    every run, an external asset is asked for only when all static assets
    have succeeded. *)
Theorem install_all_or_nothing (env : Env) (w : World) (ref : string) :
  In ref STATIC_ASSETS ->
  addAll_failed (network env (Request_new env ref "cors")) = true ->
  fst (install env w) = Rejected TypeError /\
  (forall n k, CS.entry n k (caches (snd (install env w))) = CS.entry n k (caches w)) /\
  trace (snd (install env w)) = trace w ++ install_prologue env /\
  (forall ext, In ext EXTERNAL_ASSETS ->
     ~ In (ev_fetch (Request_new env ext "cors")) (install_prologue env)) /\
  (forall n k r, ~ In (ev_cache_put n k r) (install_prologue env)) /\
  ~ In ev_skipWaiting (install_prologue env) /\
  (forall env' w', exists new,
     trace (snd (install env' w')) = trace w' ++ new /\
     forall ext, In ext EXTERNAL_ASSETS ->
       In (ev_fetch (Request_new env' ext "cors")) new ->
       forall s, In s STATIC_ASSETS ->
         exists r, network env' (Request_new env' s "cors") = net_response r
                   /\ ok r = true).
Proof.
  intros Hin Hfailed.
  assert (existsb addAll_failed (List.map (network env) (static_requests env)) = true)
    as Hsome.
  { apply existsb_exists. exists (network env (Request_new env ref "cors")).
    split; [|done]. unfold static_requests. rewrite List.map_map.
    by apply (List.in_map (fun s => network env (Request_new env s "cors"))). }
  rewrite install_run_failed by done. cbn [fst snd caches trace].
  destruct (prologue_events env) as (Hext & Hput & Hskip).
  repeat split; try done.
  - intros n k. apply entry_open.
  - apply external_attempt_needs_statics.
Qed.

Lemma install_all_or_nothing_witness :
  fst (install manifest_missing (sample_world [])) = Rejected TypeError /\
  forall k, CS.entry CACHE_NAME k
              (caches (snd (install manifest_missing (sample_world [])))) = None.
Proof.
  destruct (install_all_or_nothing manifest_missing (sample_world []) "/manifest.json")
    as (Hfails & Hentries & _).
  - simpl. auto.
  - reflexivity.
  - split; [exact Hfails|]. intros k. apply Hentries.
Defined.

Lemma addAll_entries_keys env (reqs : list Request) k :
  In k (List.map fst (flat_map (addAll_entry env) reqs)) -> In k (List.map url reqs).
Proof.
  induction reqs as [|req reqs IH]; simpl; [done|].
  rewrite List.map_app, List.in_app_iff. intros [Hin | Hin]; [|by right; apply IH].
  left. unfold addAll_entry in Hin.
  destruct (network env req); simpl in Hin; by destruct Hin.
Qed.

Lemma entry_put_entries_other cache entries (cs : CacheStorage) n k :
  ~ In k (List.map fst entries) ->
  CS.entry n k (put_entries cache entries cs) = CS.entry n k cs.
Proof.
  unfold put_entries. revert cs.
  induction entries as [|[k' r'] entries IH]; intros cs Hnot; simpl; [done|].
  rewrite IH by (intros Hin; apply Hnot; simpl; auto).
  apply entry_put_other. intros [= _ ->]. apply Hnot. simpl. auto.
Qed.

(** An attempt that stores nothing leaves the entry of its URL as it was,
    whatever the other attempts do. *)
Lemma entry_fold_external_store_skipped env cache refs cs ref n :
  List.NoDup (List.map (absolute env) refs) ->
  In ref refs ->
  (forall cs', external_store env cache cs' ref = cs') ->
  CS.entry n (absolute env ref) (fold_left (external_store env cache) refs cs)
  = CS.entry n (absolute env ref) cs.
Proof.
  revert cs. induction refs as [|ref' refs IH]; intros cs Hnodup Hin Hskip; [done|].
  simpl in Hnodup. apply List.NoDup_cons_iff in Hnodup as [Hfresh Hnodup]. simpl.
  destruct (String.eqb ref' ref) eqn:Href.
  - apply String.eqb_eq in Href. subst ref'.
    by rewrite entry_fold_external_store_other, Hskip.
  - apply String.eqb_neq in Href. destruct Hin as [Heq | Hin]; [done|].
    rewrite IH by done. apply entry_external_store_other.
    intros Heq. apply Hfresh. rewrite <- Heq. by apply List.in_map.
Qed.

Lemma external_not_static_entry env ext :
  In ext EXTERNAL_ASSETS -> ~ In ext (List.map fst (static_entries env)).
Proof.
  intros Hext Hin. unfold static_entries in Hin.
  apply addAll_entries_keys in Hin. unfold static_requests in Hin.
  rewrite List.map_map in Hin. apply List.in_map_iff in Hin as (s & Heq & Hs).
  apply (static_url_not_external env s ext Hs Hext).
  unfold Request_new in *. simpl in Heq.
  by rewrite Heq, (external_asset_absolute env ext Hext).
Qed.


(** An external asset whose attempt stores nothing has the entry it had
    before install. *)
Lemma external_skipped_entry env w ext :
  existsb addAll_failed (List.map (network env) (static_requests env)) = false ->
  existsb addAll_stalled (List.map (network env) (static_requests env)) = false ->
  In ext EXTERNAL_ASSETS ->
  (forall cs, external_store env CACHE_NAME cs ext = cs) ->
  CS.entry CACHE_NAME ext (caches (snd (install env w)))
  = CS.entry CACHE_NAME ext (caches w).
Proof.
  intros Hfailed Hstalled Hext Hskip.
  rewrite install_run_ok by done. cbn [snd caches].
  pose proof (entry_fold_external_store_skipped env CACHE_NAME EXTERNAL_ASSETS
                (put_entries CACHE_NAME (static_entries env)
                   (CS.open CACHE_NAME (caches w))) ext CACHE_NAME) as Hentry.
  rewrite (external_asset_absolute env ext Hext) in Hentry.
  rewrite Hentry; [|apply external_assets_distinct|done|done].
  rewrite entry_put_entries_other by (by apply external_not_static_entry).
  apply entry_open.
Qed.



(** ** What the lifecycle leaves for the fetch handler *)

Lemma filter_keys_NoDup (cs : CacheStorage) (f : string * Cache -> bool) :
  NoDup (CS.keys cs) -> NoDup (CS.keys (List.filter f cs)).
Proof.
  induction cs as [|[m c] cs IH]; simpl; [done|].
  intros Hnd. apply NoDup_cons in Hnd as [Hm Hnd].
  destruct (f (m, c)); simpl; [|by apply IH].
  apply NoDup_cons. split; [|by apply IH].
  intros Hin. apply Hm. apply list_elem_of_In. apply list_elem_of_In in Hin.
  unfold CS.keys in *. apply List.in_map_iff in Hin as ([m' c'] & <- & Hin).
  apply List.filter_In in Hin as [Hin _]. by apply (List.in_map fst _ _ Hin).
Qed.

(** After activate the current namespace is the only one, and the search
    through all namespaces is the lookup in the current one. *)
Lemma lookup_after_activate (env : Env) (w : World) (key : string) :
  NoDup (CS.keys (caches w)) ->
  CS.match_ key (caches (snd (activate env w)))
  = CS.entry CACHE_NAME key (caches (snd (activate env w))).
Proof.
  intros Hnd. rewrite activate_run. cbn [snd caches].
  apply match_only_current; [by apply filter_keys_NoDup|].
  intros n c Hin Hne. apply List.filter_In in Hin as [_ Hcur].
  by apply String.eqb_eq in Hcur.
Qed.

(** *** The static assets of a successful install *)

Lemma append_cancel (a b c : string) : a +:+ b = a +:+ c -> b = c.
Proof. induction a as [|x a IH]; simpl; [done|]. intros [= H]. by apply IH. Qed.

Lemma NoDup_map_cancel {A B} (f : A -> B) (l : list A) :
  (forall x y, f x = f y -> x = y) -> List.NoDup l -> List.NoDup (List.map f l).
Proof.
  intros Hinj. induction 1 as [|x l Hx Hnd IH]; simpl; constructor; [|done].
  intros Hin. apply List.in_map_iff in Hin as (y & Heq & Hy).
  apply Hinj in Heq. by subst y.
Qed.

Lemma static_urls env :
  List.map url (static_requests env)
  = List.map (fun s => location_origin env +:+ s) STATIC_ASSETS.
Proof. reflexivity. Qed.

Lemma static_urls_distinct env : List.NoDup (List.map url (static_requests env)).
Proof.
  rewrite static_urls. apply NoDup_map_cancel; [intros x y; apply append_cancel|].
  apply NoDup_ListNoDup. apply (bool_decide_unpack _). by vm_compute.
Qed.

Lemma addAll_entries_distinct env (reqs : list Request) :
  List.NoDup (List.map url reqs) ->
  List.NoDup (List.map fst (flat_map (addAll_entry env) reqs)).
Proof.
  induction reqs as [|req reqs IH]; simpl; [done|].
  intros Hnd. apply List.NoDup_cons_iff in Hnd as [Hreq Hnd].
  rewrite List.map_app. unfold addAll_entry at 1.
  destruct (network env req); simpl; try by apply IH.
  constructor; [|by apply IH]. intros Hin. by apply addAll_entries_keys in Hin.
Qed.

Lemma entry_put_entries cache entries (cs : CacheStorage) k r :
  List.NoDup (List.map fst entries) ->
  CS.has cache cs = true ->
  In (k, r) entries ->
  CS.entry cache k (put_entries cache entries cs) = Some r.
Proof.
  unfold put_entries. revert cs.
  induction entries as [|[k' r'] entries IH]; intros cs Hnd Hhas Hin; [done|].
  simpl in Hnd. apply List.NoDup_cons_iff in Hnd as [Hfresh Hnd]. simpl.
  destruct Hin as [[= -> ->] | Hin].
  - fold (put_entries cache entries (CS.put cache k r cs)).
    rewrite entry_put_entries_other by done. by apply entry_put_same.
  - apply IH; try done. by rewrite has_put.
Qed.

(** When every static asset is answered with an ok status and a response the
    cache does not refuse, each of them is in the current namespace after
    install, under its URL. *)
Lemma install_stores_all_statics (env : Env) (w : World) (s : string) (r : Response) :
  (forall ref, In ref STATIC_ASSETS ->
     exists r', network env (Request_new env ref "cors") = net_response r'
                /\ ok r' = true /\ put_refuses r' = false) ->
  In s STATIC_ASSETS ->
  network env (Request_new env s "cors") = net_response r ->
  CS.entry CACHE_NAME (location_origin env +:+ s) (caches (snd (install env w)))
  = Some r.
Proof.
  intros Hstatics Hs Hnet. apply statics_succeed in Hstatics as [Hfailed Hstalled].
  rewrite install_run_ok by done. cbn [snd caches].
  assert (url (Request_new env s "cors") = location_origin env +:+ s) as Hurl.
  { assert (List.Forall (fun a => url (Request_new env a "cors")
                                  = location_origin env +:+ a)
              STATIC_ASSETS) as Hall by (repeat constructor).
    rewrite List.Forall_forall in Hall. by apply Hall. }
  rewrite entry_fold_external_store_other.
  - apply entry_put_entries.
    + apply addAll_entries_distinct, static_urls_distinct.
    + by rewrite has_open.
    + unfold static_entries. apply List.in_flat_map.
      exists (Request_new env s "cors"). split.
      * unfold static_requests.
        by apply (List.in_map (fun ref => Request_new env ref "cors")).
      * unfold addAll_entry. rewrite Hnet, Hurl. simpl. auto.
  - intros Hin. apply List.in_map_iff in Hin as (ext & Heq & Hext).
    apply (static_url_not_external env s ext Hs Hext).
    unfold Request_new in *. simpl in Hurl. by rewrite Hurl, Heq.
Qed.

(** * Further properties of the handlers *)

(** ** More on the cache storage *)

Section CacheStorageMore.

Implicit Types (cs : CacheStorage) (name key : string) (r : Response).

Lemma has_keys name cs : CS.has name cs = true <-> In name (CS.keys cs).
Proof.
  unfold CS.has. induction cs as [|[m c] cs IH]; simpl; [by split|].
  destruct (String.eqb m name) eqn:Hm.
  - apply String.eqb_eq in Hm. split; auto.
  - apply String.eqb_neq in Hm. rewrite IH. split; [auto|]. by intros [?|?].
Qed.

Lemma keys_open name cs :
  CS.keys (CS.open name cs) = if CS.has name cs then CS.keys cs else CS.keys cs ++ [name].
Proof.
  unfold CS.open. destruct (CS.has name cs); [done|].
  unfold CS.keys. by rewrite List.map_app.
Qed.

Lemma open_keys_NoDup name cs : NoDup (CS.keys cs) -> NoDup (CS.keys (CS.open name cs)).
Proof.
  intros Hnd. rewrite keys_open. destruct (CS.has name cs) eqn:Hhas; [done|].
  apply NoDup_app. split; [done|]. split; [|apply NoDup_singleton].
  intros n Hn Hin. apply list_elem_of_singleton in Hin. subst n.
  apply list_elem_of_In, has_keys in Hn. congruence.
Qed.

Lemma lookup_cache_open_other n name cs :
  n <> name -> CS.lookup_cache n (CS.open name cs) = CS.lookup_cache n cs.
Proof.
  intros Hne. unfold CS.open. destruct (CS.has name cs); [done|].
  rewrite lookup_cache_app. destruct (CS.lookup_cache n cs); [done|]. simpl.
  apply String.eqb_neq in Hne. rewrite String.eqb_sym in Hne. by rewrite Hne.
Qed.

Lemma lookup_cache_put_other n name key r cs :
  n <> name -> CS.lookup_cache n (CS.put name key r cs) = CS.lookup_cache n cs.
Proof.
  intros Hne. rewrite lookup_cache_put. apply String.eqb_neq in Hne. by rewrite Hne.
Qed.

(** A request no namespace holds is found, once it is put in an existing
    namespace. *)
Lemma match_put_fresh name key r cs :
  CS.match_ key cs = None -> CS.has name cs = true ->
  CS.match_ key (CS.put name key r cs) = Some r.
Proof.
  unfold CS.has. induction cs as [|[m c] cs IH]; simpl; [done|].
  destruct (c !! key) eqn:Hc; [done|]. intros Hmiss.
  destruct (String.eqb m name) eqn:Hm; simpl.
  - intros _. by rewrite lookup_insert_eq.
  - rewrite Hc. by apply IH.
Qed.

(** The members of a storage after [open] and [put]. *)
Lemma in_put_open_other name key r cs n c :
  In (n, c) (CS.put name key r (CS.open name cs)) -> n <> name ->
  In (n, c) cs.
Proof.
  unfold CS.put. intros Hin Hne. apply List.in_map_iff in Hin as ([m c'] & Heq & Hin).
  simpl in Heq. destruct (String.eqb m name) eqn:Hm.
  - apply String.eqb_eq in Hm. injection Heq as <- _. done.
  - injection Heq as -> ->. unfold CS.open in Hin.
    destruct (CS.has name cs); [done|].
    apply List.in_app_iff in Hin as [Hin | [[= <- _] | []]]; done.
Qed.

End CacheStorageMore.

(** ** More on the fetch handler *)

Lemma fetch_and_cache_stalled request env w :
  network env request = net_stalled ->
  fetch_and_cache request env w =
  (Pending, {| caches := caches w; trace := trace w ++ [ev_fetch request] |}).
Proof. intros Hnet. unfold fetch_and_cache. promise_steps. by rewrite Hnet. Qed.

Lemma on_fetch_non_get request env w :
  String.eqb (method request) "GET" = false ->
  on_fetch request env w = (not_intercepted, w).
Proof. intros Hmethod. unfold on_fetch. by rewrite Hmethod. Qed.

(** What a fetch event does to the caches: nothing, or the current namespace
    is opened, for one [put] of an ok answer of the network under the URL of
    the request, which the cache takes or refuses. *)
Lemma on_fetch_caches request env w :
  caches (snd (on_fetch request env w)) = caches w \/
  caches (snd (on_fetch request env w)) = CS.open CACHE_NAME (caches w) \/
  exists r, network env request = net_response r /\ ok r = true /\
    caches (snd (on_fetch request env w))
    = CS.put CACHE_NAME (url request) r (CS.open CACHE_NAME (caches w)).
Proof.
  destruct (String.eqb (method request) "GET") eqn:Hget;
    [|rewrite on_fetch_non_get by done; by left].
  apply String.eqb_eq in Hget.
  destruct (startsWith (pathname (URL_new (url request))) "/api/") eqn:Hapi;
    [rewrite on_fetch_api by done; by left|].
  destruct (CS.match_ (url request) (caches w)) as [cached|] eqn:Hlookup.
  - rewrite (on_fetch_hit _ _ _ cached) by done. cbn [snd]. rewrite revalidate_run.
    destruct (network env request) as [r| |] eqn:Hnet; [|by left..].
    destruct (ok r) eqn:Hok; [|by left].
    destruct (put_accepts env (of_request request) r); [|by right; left].
    right. right. by exists r.
  - rewrite on_fetch_miss by done. unfold miss_path. cbn [snd].
    destruct (network env request) as [r| |] eqn:Hnet.
    + rewrite (fetch_and_cache_response _ _ _ r) by done. cbn [snd].
      destruct (ok r) eqn:Hok; [|by left].
      destruct (ResponseType_eqb (type r) basic); [|by left]. cbn [andb].
      destruct (put_accepts env (of_request request) r); [|by right; left].
      right. right. by exists r.
    + rewrite fetch_and_cache_failure by done.
      destruct (headers_get (headers request) "accept") as [accept|]; [|by left].
      destruct (includes accept "text/html"); by left.
    + rewrite fetch_and_cache_stalled by done. by left.
Qed.

(** The events of a fetch event for a GET request: they are added to the
    trace, exactly one of them is a request to the network, the request of
    the event, and none deletes a namespace. *)
Lemma on_fetch_events request env w :
  method request = "GET" ->
  exists new,
    trace (snd (on_fetch request env w)) = trace w ++ new /\
    fetch_events new = [request] /\ delete_events new = [].
Proof.
  intros Hget.
  destruct (startsWith (pathname (URL_new (url request))) "/api/") eqn:Hapi;
    [rewrite on_fetch_api by done; by eexists|].
  destruct (CS.match_ (url request) (caches w)) as [cached|] eqn:Hlookup.
  - rewrite (on_fetch_hit _ _ _ cached) by done. cbn [snd]. rewrite revalidate_run.
    unfold looked_up.
    destruct (network env request) as [r| |] eqn:Hnet;
      [destruct (ok r); [destruct (put_accepts env (of_request request) r)|]|..];
      cbn [trace caches]; rewrite app_assoc_cons; by eexists.
  - rewrite on_fetch_miss by done. unfold miss_path, looked_up. cbn [snd].
    destruct (network env request) as [r| |] eqn:Hnet.
    + rewrite (fetch_and_cache_response _ _ _ r) by done. cbn [snd].
      destruct (ok r && ResponseType_eqb (type r) basic);
        [destruct (put_accepts env (of_request request) r)|];
        cbn [trace caches]; rewrite app_assoc_cons; by eexists.
    + rewrite fetch_and_cache_failure by done.
      destruct (headers_get (headers request) "accept") as [accept|];
        [destruct (includes accept "text/html")|];
        cbn [snd trace caches]; rewrite app_assoc_cons; by eexists.
    + rewrite fetch_and_cache_stalled by done.
      cbn [snd trace caches]. rewrite app_assoc_cons. by eexists.
Qed.

(** X1. A fetch event changes at most one cache entry, the one of the
    request in the current namespace: every other entry of every namespace
    is as it was, and no namespace disappears. *)
Theorem fetch_touches_one_entry (request : Request) (env : Env) (w : World)
  (n k : string) :
  (n, k) <> (CACHE_NAME, url request) ->
  CS.entry n k (caches (snd (on_fetch request env w))) = CS.entry n k (caches w) /\
  (CS.has n (caches w) = true ->
   CS.has n (caches (snd (on_fetch request env w))) = true).
Proof.
  intros Hne.
  assert (CS.has n (caches w) = true ->
          CS.has n (CS.open CACHE_NAME (caches w)) = true) as Hopen.
  { intros Hhas. unfold CS.open.
    destruct (CS.has CACHE_NAME (caches w)); [done|].
    unfold CS.has in *. rewrite lookup_cache_app.
    by destruct (CS.lookup_cache n (caches w)). }
  destruct (on_fetch_caches request env w) as [-> | [-> | (r & _ & _ & ->)]];
    [done| |].
  - split; [apply entry_open | done].
  - split; [by rewrite entry_put_other, entry_open | by rewrite has_put].
Qed.

Lemma fetch_touches_one_entry_witness :
  CS.entry CACHE_NAME "https://anti333.example/"
    (caches (snd (on_fetch index_request (online fresh_index)
                    (sample_world installed_caches))))
  = Some cached_root.
Proof.
  destruct (fetch_touches_one_entry index_request (online fresh_index)
              (sample_world installed_caches) CACHE_NAME "https://anti333.example/")
    as [Hentry _]; [discriminate|].
  rewrite Hentry. reflexivity.
Defined.

(** X2. Every intercepted GET request is sent to the network exactly once,
    whatever branch the handler takes (API, cached, not cached) and whatever
    the network does: there is no retry and no second request; and the
    fetch handler never deletes a namespace. *)
Theorem intercepted_get_fetched_once (request : Request) (env : Env) (w : World) :
  method request = "GET" ->
  exists new,
    trace (snd (on_fetch request env w)) = trace w ++ new /\
    fetch_events new = [request] /\ delete_events new = [].
Proof. apply on_fetch_events. Qed.

Lemma intercepted_get_fetched_once_witness :
  exists new,
    trace (snd (on_fetch new_page_request offline (sample_world installed_caches)))
    = [] ++ new /\
    fetch_events new = [new_page_request] /\ delete_events new = [].
Proof.
  apply (intercepted_get_fetched_once new_page_request offline
           (sample_world installed_caches)).
  reflexivity.
Defined.

(** X3. Revalidation does not let an error take the place of a cached
    entry: when the request is cached and the network answers with a status
    that is not ok (404, 500, or the status 0 of an opaque response), the
    cached response is the answer and the caches are exactly as they
    were. *)
Theorem revalidation_ignores_error_answers (request : Request) (env : Env)
  (w : World) (cached r : Response) :
  method request = "GET" ->
  startsWith (pathname (URL_new (url request))) "/api/" = false ->
  CS.match_ (url request) (caches w) = Some cached ->
  network env request = net_response r ->
  ok r = false ->
  fst (on_fetch request env w) = respondWith (Fulfilled (Some cached)) /\
  caches (snd (on_fetch request env w)) = caches w.
Proof.
  intros Hget Hapi Hhit Hnet Hok.
  rewrite (on_fetch_hit _ _ _ cached) by done. cbn [fst snd].
  by rewrite revalidate_run, Hnet, Hok.
Qed.

Lemma revalidation_ignores_error_answers_witness :
  fst (on_fetch index_request (online server_error) (sample_world installed_caches))
    = respondWith (Fulfilled (Some cached_index)) /\
  caches (snd (on_fetch index_request (online server_error)
                 (sample_world installed_caches))) = installed_caches.
Proof.
  apply (revalidation_ignores_error_answers index_request (online server_error)
           (sample_world installed_caches) cached_index server_error);
    reflexivity.
Defined.

(** X4. The two write paths of the fetch handler differ: the revalidation of
    a cached request does not look at the type of the answer, the first
    fetch of a request that is not cached stores an answer only when its type
    is basic.  So an ok answer of another type (a cors response, say) that the
    cache takes (an http or https request, a status other than 206, no Vary
    [*]) is stored when the request was cached, and changes nothing when it
    was not. *)
Theorem revalidation_stores_any_type (request : Request) (env : Env)
  (r : Response) :
  method request = "GET" ->
  startsWith (pathname (URL_new (url request))) "/api/" = false ->
  network env request = net_response r ->
  ok r = true ->
  type r <> basic ->
  http_scheme (url request) = true ->
  put_refuses r = false ->
  (forall w cached, CS.match_ (url request) (caches w) = Some cached ->
     CS.entry CACHE_NAME (url request) (caches (snd (on_fetch request env w)))
     = Some r) /\
  (forall w, CS.match_ (url request) (caches w) = None ->
     fst (on_fetch request env w) = respondWith (Fulfilled (Some r)) /\
     caches (snd (on_fetch request env w)) = caches w).
Proof.
  intros Hget Hapi Hnet Hok Htype Hhttp Htaken. split.
  - intros w cached Hhit. rewrite (on_fetch_hit _ _ _ cached) by done. cbn [snd].
    rewrite revalidate_run, Hnet, Hok, (put_accepts_taken env request r) by done.
    cbn [caches]. apply entry_put_same, has_open.
  - intros w Hmiss. rewrite on_fetch_miss by done. unfold miss_path.
    rewrite (fetch_and_cache_response _ _ _ r) by done. cbn [fst snd].
    destruct (ResponseType_eqb (type r) basic) eqn:Hbasic.
    + by apply ResponseType_eqb_eq in Hbasic.
    + by rewrite andb_false_r.
Qed.

Lemma revalidation_stores_any_type_witness :
  CS.entry CACHE_NAME (url script_request)
    (caches (snd (on_fetch script_request (online cdn_script)
       (sample_world [(CACHE_NAME, {[url script_request := cached_index]})]))))
  = Some cdn_script /\
  caches (snd (on_fetch script_request (online cdn_script)
                 (sample_world installed_caches))) = installed_caches.
Proof.
  destruct (revalidation_stores_any_type script_request (online cdn_script) cdn_script)
    as [Hhit Hmiss]; [reflexivity | reflexivity | reflexivity | reflexivity
                      | discriminate | reflexivity | reflexivity |].
  split.
  - apply (Hhit (sample_world [(CACHE_NAME, {[url script_request := cached_index]})])
             cached_index). reflexivity.
  - apply (Hmiss (sample_world installed_caches)). reflexivity.
Defined.

(** X5. Put and lookup round trip on the path of a request that is not
    cached: once the network has answered it with an ok response of type
    basic that the cache takes (an http or https request, a status other than
    206, no Vary [*]), the next fetch event for the same request is answered
    with that response from the cache, whatever the network does then; when
    the cache refuses the answer, the next fetch event finds the request
    not cached, as the first did. *)
Theorem cold_fetch_then_hit (request : Request) (env env' : Env) (w : World)
  (r : Response) :
  method request = "GET" ->
  startsWith (pathname (URL_new (url request))) "/api/" = false ->
  CS.match_ (url request) (caches w) = None ->
  network env request = net_response r ->
  ok r = true ->
  type r = basic ->
  http_scheme (url request) = true ->
  (put_refuses r = false ->
     fst (on_fetch request env' (snd (on_fetch request env w)))
     = respondWith (Fulfilled (Some r))) /\
  (put_refuses r = true ->
     on_fetch request env' (snd (on_fetch request env w))
     = miss_path request env' (snd (on_fetch request env w))).
Proof.
  intros Hget Hapi Hmiss Hnet Hok Htype Hhttp. split; [intros Htaken|].
  2: { intros Hrefused. apply on_fetch_miss; [done|done|].
       rewrite on_fetch_miss by done. unfold miss_path.
       rewrite (fetch_and_cache_response _ _ _ r) by done. cbn [snd].
       apply ResponseType_eqb_eq in Htype. rewrite Hok, Htype. cbn [andb].
       rewrite (put_accepts_refused _ _ _ Hrefused). cbn [caches].
       unfold looked_up. cbn [caches]. by rewrite match_open. }
  assert (CS.match_ (url request) (caches (snd (on_fetch request env w))) = Some r)
    as Hhit.
  { rewrite on_fetch_miss by done. unfold miss_path.
    rewrite (fetch_and_cache_response _ _ _ r) by done. cbn [snd].
    apply ResponseType_eqb_eq in Htype. rewrite Hok, Htype. cbn [andb].
    rewrite (put_accepts_taken env request r) by done. cbn [caches].
    unfold looked_up. cbn [caches].
    apply match_put_fresh; [by rewrite match_open | apply has_open]. }
  by rewrite (on_fetch_hit request env' _ r Hget Hapi Hhit).
Qed.

Lemma cold_fetch_then_hit_witness :
  fst (on_fetch new_page_request offline
         (snd (on_fetch new_page_request (online fresh_index)
                 (sample_world installed_caches))))
  = respondWith (Fulfilled (Some fresh_index)).
Proof.
  destruct (cold_fetch_then_hit new_page_request (online fresh_index) offline
              (sample_world installed_caches) fresh_index) as [Hhit _];
    [reflexivity | reflexivity | reflexivity | reflexivity | reflexivity
     | reflexivity | reflexivity |].
  apply Hhit. reflexivity.
Defined.

(** X6. Stale-while-revalidate round trip: where the current namespace is
    the only one to hold the request, a fetch event answered from the cache
    and revalidated with an ok answer of the network that the cache takes (an
    http or https request, a status other than 206, no Vary [*]) makes the
    next fetch event for the same request answer with that fresh response;
    when the cache refuses the answer, the next fetch event is answered with
    the response that was cached before. *)
Theorem revalidated_then_fresh (request : Request) (env env' : Env) (w : World)
  (cached fresh : Response) :
  NoDup (CS.keys (caches w)) ->
  (forall n c, In (n, c) (caches w) -> n <> CACHE_NAME -> c !! url request = None) ->
  method request = "GET" ->
  startsWith (pathname (URL_new (url request))) "/api/" = false ->
  CS.entry CACHE_NAME (url request) (caches w) = Some cached ->
  network env request = net_response fresh ->
  ok fresh = true ->
  http_scheme (url request) = true ->
  fst (on_fetch request env w) = respondWith (Fulfilled (Some cached)) /\
  (put_refuses fresh = false ->
     fst (on_fetch request env' (snd (on_fetch request env w)))
     = respondWith (Fulfilled (Some fresh))) /\
  (put_refuses fresh = true ->
     fst (on_fetch request env' (snd (on_fetch request env w)))
     = respondWith (Fulfilled (Some cached))).
Proof.
  intros Hnd Hothers Hget Hapi Hentry Hnet Hok Hhttp.
  assert (CS.match_ (url request) (caches w) = Some cached) as Hhit
    by (by rewrite (match_only_current _ CACHE_NAME)).
  split; [by rewrite (on_fetch_hit _ _ _ cached)|]. split; [intros Htaken|].
  2: { intros Hrefused.
       assert (CS.match_ (url request) (caches (snd (on_fetch request env w)))
               = Some cached) as Hstill.
       { rewrite (on_fetch_hit _ _ _ cached) by done. cbn [snd].
         rewrite revalidate_run, Hnet, Hok, (put_accepts_refused _ _ _ Hrefused).
         unfold looked_up. cbn [caches]. by rewrite match_open. }
       by rewrite (on_fetch_hit request env' _ cached Hget Hapi Hstill). }
  assert (CS.match_ (url request) (caches (snd (on_fetch request env w))) = Some fresh)
    as Hhit'.
  { rewrite (on_fetch_hit _ _ _ cached) by done. cbn [snd].
    rewrite revalidate_run, Hnet, Hok, (put_accepts_taken env request fresh) by done.
    unfold looked_up. cbn [caches].
    rewrite (match_only_current _ CACHE_NAME).
    - apply entry_put_same, has_open.
    - rewrite keys_put. by apply open_keys_NoDup.
    - intros n c Hin Hne. apply (Hothers n c); [|done].
      by apply (in_put_open_other CACHE_NAME (url request) fresh). }
  by rewrite (on_fetch_hit request env' _ fresh Hget Hapi Hhit').
Qed.

Lemma revalidated_then_fresh_witness :
  fst (on_fetch index_request (online fresh_index) (sample_world installed_caches))
    = respondWith (Fulfilled (Some cached_index)) /\
  fst (on_fetch index_request offline
         (snd (on_fetch index_request (online fresh_index)
                 (sample_world installed_caches))))
    = respondWith (Fulfilled (Some fresh_index)).
Proof.
  destruct (revalidated_then_fresh index_request (online fresh_index) offline
              (sample_world installed_caches) cached_index fresh_index)
    as (Hfirst & Hnext & _);
    [apply NoDup_singleton | | reflexivity | reflexivity | reflexivity
     | reflexivity | reflexivity | reflexivity |].
  - intros n c [Heq | []] Hne. inversion Heq. congruence.
  - split; [exact Hfirst | apply Hnext; reflexivity].
Defined.

(** ** More on the install handler *)

Section InstallMore.

Implicit Types (cs : CacheStorage) (refs : list string).

Lemma keys_put_entries cache entries cs :
  CS.keys (put_entries cache entries cs) = CS.keys cs.
Proof.
  unfold put_entries. revert cs.
  induction entries as [|[k r] entries IH]; intros cs; simpl; [done|].
  by rewrite IH, keys_put.
Qed.

Lemma keys_fold_external_store env cache refs cs :
  CS.keys (fold_left (external_store env cache) refs cs) = CS.keys cs.
Proof.
  revert cs. induction refs as [|ref refs IH]; intros cs; simpl; [done|].
  rewrite IH. unfold external_store.
  destruct (network env (Request_new env ref "cors")) as [r| |]; try done.
  destruct (ok r && put_accepts env (of_url ref) r); [apply keys_put | done].
Qed.

Lemma lookup_cache_put_entries_other n cache entries cs :
  n <> cache ->
  CS.lookup_cache n (put_entries cache entries cs) = CS.lookup_cache n cs.
Proof.
  intros Hne. unfold put_entries. revert cs.
  induction entries as [|[k r] entries IH]; intros cs; simpl; [done|].
  by rewrite IH, lookup_cache_put_other.
Qed.

Lemma lookup_cache_fold_external_other env n cache refs cs :
  n <> cache ->
  CS.lookup_cache n (fold_left (external_store env cache) refs cs)
  = CS.lookup_cache n cs.
Proof.
  intros Hne. revert cs. induction refs as [|ref refs IH]; intros cs; simpl; [done|].
  rewrite IH. unfold external_store.
  destruct (network env (Request_new env ref "cors")) as [r| |]; try done.
  destruct (ok r && put_accepts env (of_url ref) r);
    [by apply lookup_cache_put_other | done].
Qed.

(** The storage after install, in its three outcomes: the current namespace
    opened, and for a successful static phase the stores on top of it. *)
Lemma install_caches env w :
  caches (snd (install env w)) = CS.open CACHE_NAME (caches w) \/
  caches (snd (install env w))
  = fold_left (external_store env CACHE_NAME) EXTERNAL_ASSETS
      (put_entries CACHE_NAME (static_entries env) (CS.open CACHE_NAME (caches w))).
Proof.
  destruct (existsb addAll_failed (List.map (network env) (static_requests env)))
    eqn:Hfailed; [rewrite install_run_failed by done; by left|].
  destruct (existsb addAll_stalled (List.map (network env) (static_requests env)))
    eqn:Hstalled; [rewrite install_run_stalled by done; by left|].
  rewrite install_run_ok by done. by right.
Qed.

Lemma install_keys env w :
  CS.keys (caches (snd (install env w))) = CS.keys (CS.open CACHE_NAME (caches w)).
Proof.
  destruct (install_caches env w) as [-> | ->]; [done|].
  by rewrite keys_fold_external_store, keys_put_entries.
Qed.

Lemma skipWaiting_not_stored cache entries : ~ In ev_skipWaiting (put_events cache entries).
Proof.
  unfold put_events. intros Hin. apply List.in_map_iff in Hin as (kr & Heq & _).
  discriminate.
Qed.

Lemma skipWaiting_not_external env cache refs :
  ~ In ev_skipWaiting (flat_map (external_events env cache) refs).
Proof.
  intros Hin. apply List.in_flat_map in Hin as (ref & _ & Hin).
  unfold external_events in Hin. destruct Hin as [Heq | Hin]; [discriminate|].
  destruct (network env (Request_new env ref "cors")) as [r| |];
    [destruct (ok r); [destruct (put_accepts env (of_url ref) r)|]|..];
    simpl in Hin; intuition discriminate.
Qed.

End InstallMore.

(** X7. When every static asset is answered with an ok status and a response
    the cache does not refuse (no status 206, no Vary [*]), each of them is
    in the current namespace after install, under its URL at the origin of
    the worker, with the response the network gave for it: whatever the
    cache held before and whatever becomes of the external assets. *)
Theorem install_caches_static_assets (env : Env) (w : World) (s : string)
  (r : Response) :
  (forall ref, In ref STATIC_ASSETS ->
     exists r', network env (Request_new env ref "cors") = net_response r'
                /\ ok r' = true /\ put_refuses r' = false) ->
  In s STATIC_ASSETS ->
  network env (Request_new env s "cors") = net_response r ->
  CS.entry CACHE_NAME (location_origin env +:+ s) (caches (snd (install env w)))
  = Some r.
Proof. apply install_stores_all_statics. Qed.

Lemma install_caches_static_assets_witness :
  CS.entry CACHE_NAME "https://anti333.example/manifest.json"
    (caches (snd (install all_ok (sample_world installed_caches))))
  = Some (sample_response 200 basic "https://anti333.example/manifest.json").
Proof.
  apply (install_caches_static_assets all_ok
           (sample_world installed_caches) "/manifest.json").
  - intros ref _. eexists. split; [reflexivity | split; reflexivity].
  - simpl. auto.
  - reflexivity.
Defined.

(** X8. Install works on the current namespace only: whatever its outcome
    (rejected, never settled, completed), the current namespace exists
    afterwards, also after a failed install, and every namespace of another
    name holds what it held before. *)
Theorem install_opens_current_only (env : Env) (w : World) (n : string) :
  n <> CACHE_NAME ->
  CS.has CACHE_NAME (caches (snd (install env w))) = true /\
  CS.lookup_cache n (caches (snd (install env w))) = CS.lookup_cache n (caches w).
Proof.
  intros Hne. destruct (install_caches env w) as [-> | ->].
  - split; [apply has_open | by apply lookup_cache_open_other].
  - rewrite has_fold_external_store, has_put_entries, has_open.
    rewrite lookup_cache_fold_external_other, lookup_cache_put_entries_other by done.
    split; [done | by apply lookup_cache_open_other].
Qed.

Lemma install_opens_current_only_witness :
  CS.has CACHE_NAME (caches (snd (install manifest_missing (sample_world stale_caches))))
    = true /\
  CS.lookup_cache "anti333-cache-v1"
    (caches (snd (install manifest_missing (sample_world stale_caches))))
  = Some {["https://anti333.example/index.html" := cached_index]}.
Proof.
  apply (install_opens_current_only manifest_missing (sample_world stale_caches)
           "anti333-cache-v1").
  discriminate.
Defined.

(** X9. The worker asks to skip waiting exactly when the install step
    completes, and then as its last act: not when a static asset failed, and
    not while an asset is still unanswered. *)
Theorem install_skips_waiting_when_done (env : Env) (w : World) :
  exists new,
    trace (snd (install env w)) = trace w ++ new /\
    (In ev_skipWaiting new <-> fst (install env w) = Fulfilled tt) /\
    (In ev_skipWaiting new -> last new = Some ev_skipWaiting).
Proof.
  destruct (prologue_events env) as (_ & _ & Hskip).
  destruct (existsb addAll_failed (List.map (network env) (static_requests env)))
    eqn:Hfailed.
  { rewrite install_run_failed by done. exists (install_prologue env).
    cbn [fst snd trace]. split; [done|]. split; [split|]; done. }
  destruct (existsb addAll_stalled (List.map (network env) (static_requests env)))
    eqn:Hstalled.
  { rewrite install_run_stalled by done. exists (install_prologue env).
    cbn [fst snd trace]. split; [done|]. split; [split|]; done. }
  rewrite install_run_ok by done. cbn [fst snd trace]. eexists.
  split; [reflexivity|].
  destruct (existsb is_pending (List.map (external_outcome env) EXTERNAL_ASSETS)).
  - assert (~ In ev_skipWaiting
              (install_prologue env ++ put_events CACHE_NAME (static_entries env) ++
               flat_map (external_events env CACHE_NAME) EXTERNAL_ASSETS ++ []))
      as Hnone.
    { rewrite !List.in_app_iff. intros [H | [H | [H | []]]]; [done| |].
      - by apply skipWaiting_not_stored in H.
      - by apply skipWaiting_not_external in H. }
    split; [split|]; done.
  - split; [split; [done|]|].
    + intros _. rewrite !List.in_app_iff. right. right. right. by left.
    + intros _. rewrite !List.app_assoc. apply last_snoc.
Qed.

(** X10. An external asset that the network answers with a status that is
    not ok is passed over in silence: its entry in the current namespace is
    what it was before install, and no [Could not cache] message is logged
    for it. *)
Theorem external_error_answer_skipped (env : Env) (w : World) (ext : string)
  (r : Response) :
  (forall ref, In ref STATIC_ASSETS ->
     exists r', network env (Request_new env ref "cors") = net_response r'
                /\ ok r' = true) ->
  In ext EXTERNAL_ASSETS ->
  network env (Request_new env ext "cors") = net_response r ->
  ok r = false ->
  CS.entry CACHE_NAME ext (caches (snd (install env w)))
    = CS.entry CACHE_NAME ext (caches w) /\
  exists new,
    trace (snd (install env w)) = trace w ++ new /\
    ~ In (ev_log ("[SW] Could not cache: " +:+ ext)) new.
Proof.
  intros _ Hext Hnet Hok.
  assert (~ In (ev_log ("[SW] Could not cache: " +:+ ext)) (install_prologue env))
    as Hprologue.
  { unfold install_prologue. intros Hin.
    destruct Hin as [Heq | [Heq | [Heq | [Heq | Hin]]]]; try discriminate.
    apply List.in_map_iff in Hin as (req & Heq & _). discriminate. }
  destruct (existsb addAll_failed (List.map (network env) (static_requests env)))
    eqn:Hfailed.
  { rewrite install_run_failed by done. cbn [snd caches trace].
    split; [apply entry_open | by eexists]. }
  destruct (existsb addAll_stalled (List.map (network env) (static_requests env)))
    eqn:Hstalled.
  { rewrite install_run_stalled by done. cbn [snd caches trace].
    split; [apply entry_open | by eexists]. }
  split.
  - apply external_skipped_entry; try done.
    intros cs. unfold external_store. by rewrite Hnet, Hok.
  - rewrite install_run_ok by done. cbn [snd trace].
    eexists. split; [reflexivity|]. rewrite !List.in_app_iff.
    intros [Hin | [Hin | [Hin | Hin]]]; [done | | |].
    + unfold put_events in Hin. apply List.in_map_iff in Hin as (kr & Heq & _).
      discriminate.
    + apply List.in_flat_map in Hin as (ext' & _ & Hin).
      unfold external_events in Hin. destruct Hin as [Heq | Hin]; [discriminate|].
      destruct (network env (Request_new env ext' "cors")) as [r'| |] eqn:Hnet';
        [destruct (ok r') eqn:Hok';
         [destruct (put_accepts env (of_url ext') r')|]|..];
        simpl in Hin; try done;
        destruct Hin as [Heq | []]; try discriminate;
        injection Heq as Heq; apply append_cancel in Heq; subst ext'; congruence.
    + destruct (existsb is_pending (List.map (external_outcome env) EXTERNAL_ASSETS));
        simpl in Hin; intuition discriminate.
Qed.

Lemma external_error_answer_skipped_witness :
  CS.entry CACHE_NAME "https://unpkg.com/docx@8.5.0/build/index.umd.js"
    (caches (snd (install docx_missing (sample_world [])))) = None /\
  exists new,
    trace (snd (install docx_missing (sample_world []))) = [] ++ new /\
    ~ In (ev_log ("[SW] Could not cache: " +:+
                  "https://unpkg.com/docx@8.5.0/build/index.umd.js")) new.
Proof.
  apply (external_error_answer_skipped docx_missing (sample_world [])
           "https://unpkg.com/docx@8.5.0/build/index.umd.js" not_found).
  - intros ref Hin. simpl in Hin.
    repeat destruct Hin as [<- | Hin]; try (eexists; split; reflexivity). done.
  - simpl. auto.
  - reflexivity.
  - reflexivity.
Defined.

(** ** More on the activate handler *)

Lemma filter_current_twice (cs : CacheStorage) :
  List.filter is_current (List.filter is_current cs) = List.filter is_current cs.
Proof.
  rewrite filter_twice. apply List.filter_ext. intros nc.
  by destruct (is_current nc).
Qed.

Lemma no_stale_left (cs : CacheStorage) :
  List.filter (fun name => negb (String.eqb name CACHE_NAME))
    (CS.keys (List.filter is_current cs)) = [].
Proof.
  induction cs as [|[m c] cs IH]; simpl; [done|]. unfold is_current at 1. simpl.
  destruct (String.eqb m CACHE_NAME) eqn:Hm; simpl; by rewrite ?Hm.
Qed.

Lemma filter_current_absent (cs : CacheStorage) :
  CS.has CACHE_NAME cs = false -> List.filter is_current cs = [].
Proof.
  unfold CS.has. induction cs as [|[m c] cs IH]; simpl; [done|].
  unfold is_current at 1. simpl.
  destruct (String.eqb m CACHE_NAME); [done | exact IH].
Qed.

(** X11. Activate is idempotent: a second run finds nothing to delete (it
    lists the namespaces and claims the clients, and that is all) and leaves
    the storage as the first run left it. *)
Theorem activate_twice (env env' : Env) (w : World) :
  caches (snd (activate env' (snd (activate env w)))) = caches (snd (activate env w)) /\
  trace (snd (activate env' (snd (activate env w))))
  = trace (snd (activate env w))
    ++ [ev_log "[SW] Activating service worker..."; ev_caches_keys; ev_clients_claim].
Proof.
  rewrite (activate_run env' (snd (activate env w))). rewrite (activate_run env w).
  cbn [snd caches trace]. rewrite filter_current_twice, no_stale_left. done.
Qed.

(** X12. Activate does not create the current namespace: when no namespace
    of that name exists before (install opened it, yet a page may have
    deleted it since), the storage is empty afterwards; the first request
    that the network answers with an ok response of type basic opens the
    namespace again: with that response as its only entry when the cache
    takes it (an http or https request, a status other than 206, no Vary
    [*]), and empty when the cache refuses it. *)
Theorem activate_does_not_create (env env' : Env) (w : World) (request : Request)
  (r : Response) :
  CS.has CACHE_NAME (caches w) = false ->
  method request = "GET" ->
  startsWith (pathname (URL_new (url request))) "/api/" = false ->
  network env' request = net_response r ->
  ok r = true ->
  type r = basic ->
  http_scheme (url request) = true ->
  caches (snd (activate env w)) = [] /\
  (put_refuses r = false ->
     caches (snd (on_fetch request env' (snd (activate env w))))
     = [(CACHE_NAME, {[url request := r]})]) /\
  (put_refuses r = true ->
     caches (snd (on_fetch request env' (snd (activate env w))))
     = [(CACHE_NAME, ∅)]).
Proof.
  intros Habsent Hget Hapi Hnet Hok Htype Hhttp.
  assert (caches (snd (activate env w)) = []) as Hempty
    by (rewrite activate_run; by apply filter_current_absent).
  split; [done|].
  rewrite on_fetch_miss; [|done|done|by rewrite Hempty].
  unfold miss_path. rewrite (fetch_and_cache_response _ _ _ r) by done.
  apply ResponseType_eqb_eq in Htype. rewrite Hok, Htype. cbn [andb snd].
  unfold looked_up. cbn [caches]. rewrite Hempty. split.
  - intros Htaken. rewrite (put_accepts_taken env' request r) by done.
    cbn [caches]. unfold CS.open, CS.put. simpl. by rewrite insert_empty.
  - intros Hrefused. by rewrite (put_accepts_refused _ _ _ Hrefused).
Qed.

Lemma activate_does_not_create_witness :
  caches (snd (activate offline
                 (sample_world [("anti333-cache-v1", {[url index_request := cached_index]})])))
    = [] /\
  caches (snd (on_fetch index_request (online fresh_index)
                 (snd (activate offline
                   (sample_world [("anti333-cache-v1",
                                   {[url index_request := cached_index]})])))))
    = [(CACHE_NAME, {[url index_request := fresh_index]})].
Proof.
  destruct (activate_does_not_create offline (online fresh_index)
              (sample_world [("anti333-cache-v1", {[url index_request := cached_index]})])
              index_request fresh_index) as (Hempty & Htaken & _);
    [reflexivity | reflexivity | reflexivity | reflexivity | reflexivity
     | reflexivity | reflexivity |].
  split; [exact Hempty | apply Htaken; reflexivity].
Defined.

Lemma entry_after_activate (env : Env) (w : World) (k : string) :
  CS.entry CACHE_NAME k (caches (snd (activate env w)))
  = CS.entry CACHE_NAME k (caches w).
Proof.
  rewrite activate_run. cbn [snd caches]. unfold CS.entry.
  by rewrite lookup_current_filter.
Qed.

(** X13. After activate, the current namespace alone decides whether a
    request is a cache hit: what it held before activate is served, and a
    request it does not hold goes to the network, also when a namespace
    deleted by activate held it. *)
Theorem activate_makes_lookup_current (request : Request) (env env' : Env)
  (w : World) :
  NoDup (CS.keys (caches w)) ->
  method request = "GET" ->
  startsWith (pathname (URL_new (url request))) "/api/" = false ->
  (forall cached, CS.entry CACHE_NAME (url request) (caches w) = Some cached ->
     fst (on_fetch request env' (snd (activate env w)))
     = respondWith (Fulfilled (Some cached))) /\
  (CS.entry CACHE_NAME (url request) (caches w) = None ->
     on_fetch request env' (snd (activate env w))
     = miss_path request env' (snd (activate env w))).
Proof.
  intros Hnd Hget Hapi.
  pose proof (lookup_after_activate env w (url request) Hnd) as Hlookup.
  rewrite entry_after_activate in Hlookup. split.
  - intros cached Hentry. rewrite Hentry in Hlookup.
    by rewrite (on_fetch_hit _ _ _ cached).
  - intros Hentry. rewrite Hentry in Hlookup. by apply on_fetch_miss.
Qed.

Lemma activate_makes_lookup_current_witness :
  fst (on_fetch index_request (online fresh_index)
         (snd (activate offline (sample_world stale_caches))))
  = respondWith (Fulfilled (Some fresh_index)).
Proof.
  destruct (activate_makes_lookup_current index_request offline (online fresh_index)
              (sample_world stale_caches)) as [_ Hmiss].
  - apply (bool_decide_unpack _). vm_compute. exact I.
  - reflexivity.
  - reflexivity.
  - rewrite Hmiss; reflexivity.
Defined.

(** ** The handlers together *)

Lemma on_message_run (data : option string) (env : Env) (w : World) :
  on_message data env w =
  (Fulfilled tt,
   match data with
   | Some t => if String.eqb t "SKIP_WAITING"
               then {| caches := caches w; trace := trace w ++ [ev_skipWaiting] |}
               else w
   | None => w
   end).
Proof.
  unfold on_message. destruct data as [t|]; [|done].
  by destruct (String.eqb t "SKIP_WAITING").
Qed.

(** X14. The names of the namespaces stay distinct: a storage in which no
    two namespaces share a name is still one after install, after activate,
    after any fetch event and after any message. *)
Theorem handlers_keep_names_distinct (env : Env) (w : World) :
  NoDup (CS.keys (caches w)) ->
  NoDup (CS.keys (caches (snd (install env w)))) /\
  NoDup (CS.keys (caches (snd (activate env w)))) /\
  (forall request, NoDup (CS.keys (caches (snd (on_fetch request env w))))) /\
  (forall data, NoDup (CS.keys (caches (snd (on_message data env w))))).
Proof.
  intros Hnd. split; [|split; [|split]].
  - rewrite install_keys. by apply open_keys_NoDup.
  - rewrite activate_run. cbn [snd caches]. by apply filter_keys_NoDup.
  - intros request.
    destruct (on_fetch_caches request env w) as [-> | [-> | (r & _ & _ & ->)]];
      [done | by apply open_keys_NoDup |].
    rewrite keys_put. by apply open_keys_NoDup.
  - intros data. rewrite on_message_run. cbn [snd].
    destruct data as [t|]; [|done]. by destruct (String.eqb t "SKIP_WAITING").
Qed.

Lemma handlers_keep_names_distinct_witness :
  NoDup (CS.keys (caches (snd (install all_ok (sample_world stale_caches))))) /\
  NoDup (CS.keys (caches (snd (activate all_ok (sample_world stale_caches))))).
Proof.
  destruct (handlers_keep_names_distinct all_ok (sample_world stale_caches))
    as (Hinstall & Hactivate & _).
  - apply (bool_decide_unpack _). vm_compute. exact I.
  - split; [exact Hinstall | exact Hactivate].
Defined.

(** A static asset of a successful install is found by [caches.match] once
    activate has run. *)
Lemma installed_static_lookup (env env' : Env) (w : World) (s : string)
  (r : Response) :
  NoDup (CS.keys (caches w)) ->
  (forall ref, In ref STATIC_ASSETS ->
     exists r', network env (Request_new env ref "cors") = net_response r'
                /\ ok r' = true /\ put_refuses r' = false) ->
  In s STATIC_ASSETS ->
  network env (Request_new env s "cors") = net_response r ->
  CS.match_ (location_origin env +:+ s)
    (caches (snd (activate env' (snd (install env w))))) = Some r.
Proof.
  intros Hnd Hstatics Hs Hnet.
  rewrite lookup_after_activate, entry_after_activate.
  - by apply install_stores_all_statics.
  - rewrite install_keys. by apply open_keys_NoDup.
Qed.



(** X16. The offline fallback works after a successful install: once install
    has run with every static asset answered with an ok status and a
    response the cache does not refuse (no status 206, no Vary [*]) and
    activate has run, a GET request for a page that is not cached, sent with
    an Accept header that includes text/html while the network is down, is
    answered with the root document stored at install. *)
Theorem installed_root_is_offline_fallback (env env' env'' : Env) (w : World)
  (root : Response) (request : Request) (accept : string) :
  NoDup (CS.keys (caches w)) ->
  (forall ref, In ref STATIC_ASSETS ->
     exists r', network env (Request_new env ref "cors") = net_response r'
                /\ ok r' = true /\ put_refuses r' = false) ->
  network env (Request_new env "/" "cors") = net_response root ->
  location_origin env'' = location_origin env ->
  method request = "GET" ->
  startsWith (pathname (URL_new (url request))) "/api/" = false ->
  CS.match_ (url request) (caches (snd (activate env' (snd (install env w))))) = None ->
  network env'' request = net_failure ->
  headers_get (headers request) "accept" = Some accept ->
  includes accept "text/html" = true ->
  fst (on_fetch request env'' (snd (activate env' (snd (install env w)))))
  = respondWith (Fulfilled (Some root)).
Proof.
  intros Hnd Hstatics Hroot Horigin Hget Hapi Hmiss Hnet Haccept Hhtml.
  rewrite on_fetch_miss by done. unfold miss_path.
  rewrite fetch_and_cache_failure by done. rewrite Haccept, Hhtml. cbn [fst].
  unfold looked_up. cbn [caches]. rewrite Horigin.
  rewrite (installed_static_lookup env env' w "/" root); try done.
  simpl. auto.
Qed.

Lemma installed_root_is_offline_fallback_witness :
  fst (on_fetch new_page_request offline
         (snd (activate offline (snd (install all_ok (sample_world []))))))
  = respondWith (Fulfilled (Some (sample_response 200 basic "https://anti333.example/"))).
Proof.
  apply (installed_root_is_offline_fallback all_ok offline offline (sample_world [])
           (sample_response 200 basic "https://anti333.example/") new_page_request
           "text/html,application/xhtml+xml").
  - apply NoDup_nil_2.
  - intros ref _. eexists. split; [reflexivity | split; reflexivity].
  - reflexivity.
  - reflexivity.
  - reflexivity.
  - reflexivity.
  - reflexivity.
  - reflexivity.
  - reflexivity.
  - reflexivity.
Defined.

(** X17. A message changes nothing but the waiting of the worker: whatever
    the message, the caches are as they were and the handler completes; the
    worker skips waiting exactly when the type of the message is the string
    SKIP_WAITING (compared as it is, case included), and any other message,
    or one without a type, leaves no trace at all. *)
Theorem message_only_skips_waiting (data : option string) (env : Env) (w : World) :
  fst (on_message data env w) = Fulfilled tt /\
  caches (snd (on_message data env w)) = caches w /\
  (data = Some "SKIP_WAITING" ->
     trace (snd (on_message data env w)) = trace w ++ [ev_skipWaiting]) /\
  (data <> Some "SKIP_WAITING" -> snd (on_message data env w) = w).
Proof.
  rewrite on_message_run. cbn [fst snd]. split; [done|].
  destruct data as [t|].
  - destruct (String.eqb t "SKIP_WAITING") eqn:Ht.
    + apply String.eqb_eq in Ht. subst t. repeat split; done.
    + apply String.eqb_neq in Ht. repeat split; try done. intros [= ->]. done.
  - repeat split; done.
Qed.

Lemma deletion_events_read (names : list string) :
  delete_events (deletion_events names) = names /\
  fetch_events (deletion_events names) = [].
Proof.
  induction names as [|n names [IHd IHf]]; simpl; [done|]. by rewrite IHd, IHf.
Qed.

Lemma delete_events_app (l l' : list Event) :
  delete_events (l ++ l') = delete_events l ++ delete_events l'.
Proof. unfold delete_events. by rewrite List.flat_map_app. Qed.

Lemma fetch_events_app (l l' : list Event) :
  fetch_events (l ++ l') = fetch_events l ++ fetch_events l'.
Proof. unfold fetch_events. by rewrite List.flat_map_app. Qed.

(** X18. Activate deletes exactly the namespaces whose name is not the
    current one, each once and in the order of their creation, never the
    current namespace, and it sends nothing to the network. *)
Theorem activate_deletes_exactly_stale (env : Env) (w : World) :
  exists new,
    trace (snd (activate env w)) = trace w ++ new /\
    delete_events new
    = List.filter (fun name => negb (String.eqb name CACHE_NAME)) (CS.keys (caches w)) /\
    ~ In CACHE_NAME (delete_events new) /\
    fetch_events new = [].
Proof.
  rewrite activate_run. cbn [snd trace]. eexists. split; [reflexivity|].
  destruct (deletion_events_read
              (List.filter (fun name => negb (String.eqb name CACHE_NAME))
                 (CS.keys (caches w)))) as [Hd Hf].
  rewrite !delete_events_app, !fetch_events_app, Hd, Hf. simpl.
  rewrite List.app_nil_r. split; [done|]. split; [|done].
  intros Hin. apply List.filter_In in Hin as [_ Hne].
  by rewrite String.eqb_refl in Hne.
Qed.

(** ** What the cache refuses, on the sample inputs *)

Example vary_star_fields :
  vary_star varying = true /\
  vary_star (sample_response 200 basic "plain") = false /\
  vary_star {| status := 200; type := basic;
               resp_headers := [("vary", "Accept-Encoding"); ("VARY", " * ")];
               body := "two fields" |} = true /\
  vary_star {| status := 200; type := basic;
               resp_headers := [("Vary", "Accept"); ("Accept", "*/*")];
               body := "no star" |} = false.
Proof. repeat split; reflexivity. Qed.

(** A manifest answered with status 206 fails the install step and nothing
    is stored. *)
Example install_rejects_partial_manifest :
  fst (install manifest_partial (sample_world [])) = Rejected TypeError /\
  caches (snd (install manifest_partial (sample_world []))) = [(CACHE_NAME, ∅)].
Proof. split; reflexivity. Qed.

(** An external asset answered with status 206 is not stored, is logged, and
    install completes. *)
Example external_partial_is_logged :
  fst (install docx_partial (sample_world [])) = Fulfilled tt /\
  CS.entry CACHE_NAME "https://unpkg.com/docx@8.5.0/build/index.umd.js"
    (caches (snd (install docx_partial (sample_world [])))) = None /\
  In (ev_log "[SW] Could not cache: https://unpkg.com/docx@8.5.0/build/index.umd.js")
     (trace (snd (install docx_partial (sample_world [])))).
Proof. split; [|split]; [reflexivity | reflexivity | vm_compute; auto 30]. Qed.

(** A cached page revalidated with a 206 answer keeps its entry; a page that
    is not cached and is answered with a Vary [*] response stays out of the
    cache. *)
Example refused_answers_are_not_stored :
  caches (snd (on_fetch index_request (online partial_content)
                 (sample_world installed_caches))) = installed_caches /\
  caches (snd (on_fetch new_page_request (online varying)
                 (sample_world installed_caches))) = installed_caches.
Proof. split; reflexivity. Qed.
